(** * ipmi-fan-control: the PID regulator and the two monitoring loops

    A shallow embedding of [ipmi_fan_control/pid.py] and of the
    temperature-monitoring parts of [ipmi_fan_control/ipmitool.py] and
    [ipmi_fan_control/ipmi.py].

    Number model.  Python [float]s are idealised as exact rationals [Q]:
    every operation of the controller ([+], [-], [*], [/], [abs], [min],
    [max], comparisons) is the exact one, so rounding error, infinities and
    NaN are outside the model.  Division by a zero [float] raises
    [ZeroDivisionError] in Python and does so here.  Python [int]s are [Z];
    where the source mixes both (the clamp of the ipmitool loop) a value
    carries its tag. *)

From Stdlib Require Import QArith Qabs ZArith Lqa Lia List Bool String HexString.
From Stdlib Require Import Permutation.
Import ListNotations.
Open Scope Q_scope.

(** ** Python primitives *)

(** [a < b] on floats. *)
Definition Qltb (a b : Q) : bool := negb (Qle_bool b a).

(** The two-argument builtin [min(a, b)]: the first argument, unless the
    second is strictly smaller. *)
Definition py_min (a b : Q) : Q := if Qltb b a then b else a.

(** The two-argument builtin [max(a, b)]: the first argument, unless the
    second is strictly greater. *)
Definition py_max (a b : Q) : Q := if Qltb a b then b else a.

(** [int(x)] on a float: truncation towards zero. *)
Definition py_int (x : Q) : Z := (Qnum x ÷ Zpos (Qden x))%Z.

Inductive exn : Set :=
| ZeroDivisionError
| ValueError
| RuntimeError
| KeyError
| TypeError.

Inductive result (A : Type) : Type :=
| Ok (a : A)
| Raise (e : exn).
Arguments Ok {A} a.
Arguments Raise {A} e.

(** ** pid.py *)

Module PID.

Record PIDController : Set := mkPID {
  kp : Q;
  ki : Q;
  kd : Q;
  output_min : Q;
  output_max : Q;
  sample_time : Q;
  setpoint : Q;
  last_error : Q;
  integral : Q;
  last_input : Q;
  last_output : Q;
  last_time : Q;
  auto_mode : bool;
  initialized : bool
}.

(** Attribute assignments [self.f = v]. *)
Definition with_kp v s := mkPID v (ki s) (kd s) (output_min s) (output_max s)
  (sample_time s) (setpoint s) (last_error s) (integral s) (last_input s)
  (last_output s) (last_time s) (auto_mode s) (initialized s).
Definition with_ki v s := mkPID (kp s) v (kd s) (output_min s) (output_max s)
  (sample_time s) (setpoint s) (last_error s) (integral s) (last_input s)
  (last_output s) (last_time s) (auto_mode s) (initialized s).
Definition with_kd v s := mkPID (kp s) (ki s) v (output_min s) (output_max s)
  (sample_time s) (setpoint s) (last_error s) (integral s) (last_input s)
  (last_output s) (last_time s) (auto_mode s) (initialized s).
Definition with_output_min v s := mkPID (kp s) (ki s) (kd s) v (output_max s)
  (sample_time s) (setpoint s) (last_error s) (integral s) (last_input s)
  (last_output s) (last_time s) (auto_mode s) (initialized s).
Definition with_output_max v s := mkPID (kp s) (ki s) (kd s) (output_min s) v
  (sample_time s) (setpoint s) (last_error s) (integral s) (last_input s)
  (last_output s) (last_time s) (auto_mode s) (initialized s).
Definition with_sample_time v s := mkPID (kp s) (ki s) (kd s) (output_min s)
  (output_max s) v (setpoint s) (last_error s) (integral s) (last_input s)
  (last_output s) (last_time s) (auto_mode s) (initialized s).
Definition with_setpoint v s := mkPID (kp s) (ki s) (kd s) (output_min s)
  (output_max s) (sample_time s) v (last_error s) (integral s) (last_input s)
  (last_output s) (last_time s) (auto_mode s) (initialized s).
Definition with_last_error v s := mkPID (kp s) (ki s) (kd s) (output_min s)
  (output_max s) (sample_time s) (setpoint s) v (integral s) (last_input s)
  (last_output s) (last_time s) (auto_mode s) (initialized s).
Definition with_integral v s := mkPID (kp s) (ki s) (kd s) (output_min s)
  (output_max s) (sample_time s) (setpoint s) (last_error s) v (last_input s)
  (last_output s) (last_time s) (auto_mode s) (initialized s).
Definition with_last_input v s := mkPID (kp s) (ki s) (kd s) (output_min s)
  (output_max s) (sample_time s) (setpoint s) (last_error s) (integral s) v
  (last_output s) (last_time s) (auto_mode s) (initialized s).
Definition with_last_output v s := mkPID (kp s) (ki s) (kd s) (output_min s)
  (output_max s) (sample_time s) (setpoint s) (last_error s) (integral s)
  (last_input s) v (last_time s) (auto_mode s) (initialized s).
Definition with_last_time v s := mkPID (kp s) (ki s) (kd s) (output_min s)
  (output_max s) (sample_time s) (setpoint s) (last_error s) (integral s)
  (last_input s) (last_output s) v (auto_mode s) (initialized s).
Definition with_auto_mode v s := mkPID (kp s) (ki s) (kd s) (output_min s)
  (output_max s) (sample_time s) (setpoint s) (last_error s) (integral s)
  (last_input s) (last_output s) (last_time s) v (initialized s).
Definition with_initialized v s := mkPID (kp s) (ki s) (kd s) (output_min s)
  (output_max s) (sample_time s) (setpoint s) (last_error s) (integral s)
  (last_input s) (last_output s) (last_time s) (auto_mode s) v.

(** [__init__]; [clock] is what [time.time()] returns at construction. *)
Definition init (kp ki kd output_min output_max sample_time clock : Q)
  : PIDController :=
  mkPID kp ki kd output_min output_max sample_time
        0.0 0.0 0.0 0.0 0.0 clock false false.

(** [PIDController()] with the defaults of the signature. *)
Definition default_pid (clock : Q) : PIDController :=
  init 0.1 0.02 0.01 30.0 100.0 1.0 clock.

Definition set_tunings (self : PIDController) (kp ki kd : Q) : PIDController :=
  with_kd kd (with_ki ki (with_kp kp self)).

Definition set_output_limits (self : PIDController) (output_min' output_max' : Q)
  : PIDController :=
  if Qltb output_max' output_min' then self
  else
    let self := with_output_min output_min' self in
    let self := with_output_max output_max' self in
    if auto_mode self then
      with_integral
        (py_max (py_min (integral self) (output_max self)) (output_min self))
        self
    else self.

Definition set_setpoint (self : PIDController) (setpoint : Q) : PIDController :=
  with_setpoint setpoint self.

(** [ratio = sample_time / self.sample_time] divides floats: a stored sample
    time of zero raises. *)
Definition set_sample_time (self : PIDController) (sample_time' : Q)
  : PIDController * result unit :=
  if Qltb 0 sample_time' then
    if Qeq_bool (sample_time self) 0 then (self, Raise ZeroDivisionError)
    else
      let ratio := sample_time' / sample_time self in
      let self := with_ki (ki self * ratio) self in
      if Qeq_bool ratio 0 then (self, Raise ZeroDivisionError)
      else
        let self := with_kd (kd self / ratio) self in
        (with_sample_time sample_time' self, Ok tt)
  else (self, Ok tt).

Definition _calculate_base_response (self : PIDController) (error : Q) : Q :=
  if Qle_bool error (-1.0) then output_min self
  else if Qltb error 0.0 then
    let t := error + 1.0 in
    output_min self + (t * (40.0 - output_min self))
  else if Qle_bool error 5.0 then
    let t := error / 5.0 in
    40.0 + (t * 35.0)
  else
    let capped_error := py_min (error - 5.0) 10.0 in
    let t := capped_error / 10.0 in
    let t_squared := t * t in
    75.0 + (t_squared * (output_max self - 75.0)).

(** [compute(input_val, now)]; [clock] is what [time.time()] returns when
    [now] is [None].  The result pairs the controller after the call with
    the returned float or the exception raised. *)
Definition compute (self : PIDController) (input_val : Q) (now : option Q)
  (clock : Q) : PIDController * result Q :=
  if negb (auto_mode self) then (self, Ok 0.0)
  else
    let now := match now with Some t => t | None => clock end in
    let time_change := now - last_time self in
    if Qltb time_change (sample_time self) && initialized self then
      (self, Ok (last_output self))
    else
      let error := input_val - setpoint self in
      if negb (initialized self) then
        let self :=
          if Qltb 0 error then
            let error_magnitude := py_min error 15.0 / 15.0 in
            let initial_output := 35.0 + (error_magnitude * 25.0) in
            let self := with_last_output initial_output self in
            with_integral (initial_output * 0.3) self
          else
            let self := with_last_output (output_min self) self in
            with_integral (output_min self * 0.3) self in
        let self := with_last_error error self in
        let self := with_last_input input_val self in
        let self := with_last_time now self in
        let self := with_initialized true self in
        (self, Ok (last_output self))
      else if Qeq_bool time_change 0 then (self, Raise ZeroDivisionError)
      else
        let derivative := (input_val - last_input self) / time_change in
        let self :=
          if auto_mode self then
            let integral_scale := if Qltb 8.0 (Qabs error) then 0.3 else 1.0 in
            let self :=
              with_integral
                (integral self + ki self * error * time_change * integral_scale)
                self in
            with_integral
              (py_max (py_min (integral self) (output_max self)) (output_min self))
              self
          else self in
        let base_output := _calculate_base_response self error in
        let pid_component :=
          kp self * error + kd self * derivative + integral self in
        let blend_factor := py_min (Qabs (error / 5.0)) 1.0 in
        let output :=
          (base_output * (1.0 - blend_factor)) + (pid_component * blend_factor) in
        let output := py_max (py_min output (output_max self)) (output_min self) in
        let max_change_per_second := 5.0 in
        let max_change := max_change_per_second * time_change in
        let max_change :=
          if Qltb (Qabs error) 2.0 then max_change * 0.5 else max_change in
        let output :=
          if Qltb max_change (Qabs (output - last_output self)) then
            if Qltb (last_output self) output then last_output self + max_change
            else last_output self - max_change
          else output in
        let self := with_last_error error self in
        let self := with_last_input input_val self in
        let self := with_last_output output self in
        let self := with_last_time now self in
        (self, Ok output).

Definition initialize (self : PIDController) : PIDController :=
  let self := with_last_error 0.0 self in
  let self := with_integral 0.0 self in
  let self := with_last_input 0.0 self in
  with_initialized false self.

Definition set_auto_mode (self : PIDController) (auto_mode' : bool)
  (current_input : option Q) : PIDController :=
  let self :=
    if auto_mode' && negb (auto_mode self) then
      let self := initialize self in
      match current_input with
      | Some current_input =>
          let self := with_last_input current_input self in
          with_integral (last_output self) self
      | None => self
      end
    else self in
  with_auto_mode auto_mode' self.

(** [time_change] at a call of [compute]: the time elapsed since the last
    update, as the call reads it. *)
Definition elapsed (self : PIDController) (now : option Q) (clock : Q) : Q :=
  match now with Some t => t | None => clock end - last_time self.

(** The stages of the regular branch of [compute] (an initialized controller
    past its sample time), named one by one; [compute_regular] below shows
    that [compute] is their composition. *)

(** Lines 151-156: the integral after its update and clamp. *)
Definition integral_update (self : PIDController) (error time_change : Q) : Q :=
  let integral_scale := if Qltb 8.0 (Qabs error) then 0.3 else 1.0 in
  py_max
    (py_min (integral self + ki self * error * time_change * integral_scale)
            (output_max self))
    (output_min self).

(** Lines 160-168: base response blended with the PID component, [self]
    holding the updated integral. *)
Definition blended_output (self : PIDController) (input_val error time_change : Q)
  : Q :=
  let derivative := (input_val - last_input self) / time_change in
  let base_output := _calculate_base_response self error in
  let pid_component := kp self * error + kd self * derivative + integral self in
  let blend_factor := py_min (Qabs (error / 5.0)) 1.0 in
  (base_output * (1.0 - blend_factor)) + (pid_component * blend_factor).

(** Line 171: the output limits. *)
Definition limit_output (self : PIDController) (output : Q) : Q :=
  py_max (py_min output (output_max self)) (output_min self).

(** Lines 175-180: the largest change allowed for this call. *)
Definition max_change_of (error time_change : Q) : Q :=
  let max_change_per_second := 5.0 in
  let max_change := max_change_per_second * time_change in
  if Qltb (Qabs error) 2.0 then max_change * 0.5 else max_change.

(** Lines 182-186: the rate limit around the previous output. *)
Definition rate_limit (last_output output max_change : Q) : Q :=
  if Qltb max_change (Qabs (output - last_output)) then
    if Qltb last_output output then last_output + max_change
    else last_output - max_change
  else output.

(** [compute] handed a value that is not a number (a [str], [None]): the
    two early returns do not look at it, and [input_val - self.setpoint]
    is a [TypeError] before any attribute is written. *)
Definition compute_nonnumeric (self : PIDController) (now : option Q)
  (clock : Q) : result Q :=
  if negb (auto_mode self) then Ok 0.0
  else
    let now := match now with Some t => t | None => clock end in
    let time_change := now - last_time self in
    if Qltb time_change (sample_time self) && initialized self then
      Ok (last_output self)
    else Raise TypeError.

(** The configuration part of a controller. *)
Definition config (s : PIDController) : Q * Q * Q * Q * Q * Q * Q * bool :=
  (kp s, ki s, kd s, setpoint s, output_min s, output_max s, sample_time s,
   auto_mode s).

(** Controllers of the scenarios below.  [started_pid]: the defaults, target
    60, enabled on a reading of 65 as [start_temperature_monitoring] does.
    [narrow_pid]: the same with limits 70..100 (the CLI's [--min 70]).
    [running_pid]: the state that [test_rate_limiting] sets up, output 50
    stored at time 99.  [low_max_pid]: limits 30..50 ([--max 50]). *)
Definition started_pid : PIDController :=
  set_auto_mode (set_setpoint (default_pid 0) 60.0) true (Some 65.0).
Definition narrow_pid : PIDController :=
  set_auto_mode
    (set_setpoint (set_output_limits (default_pid 0) 70.0 100.0) 60.0)
    true (Some 65.0).
Definition running_pid : PIDController :=
  with_last_time 99 (with_initialized true (with_last_output 50.0 started_pid)).
Definition low_max_pid : PIDController :=
  set_output_limits (default_pid 0) 30.0 50.0.

(** [PIDController(sample_time=...)] stores the sample time it is given,
    whatever its sign.  [timed_pid sample_time]: such a controller
    constructed at time 0, target 60, enabled, with the state of
    [running_pid] (output 50) stored at time 0. *)
Definition timed_pid (sample_time : Q) : PIDController :=
  with_last_time 0
    (with_initialized true
       (with_last_output 50.0
          (set_auto_mode
             (set_setpoint (init 0.1 0.02 0.01 30.0 100.0 sample_time 0) 60.0)
             true (Some 65.0)))).

(** [lo <= x <= hi]. *)
Definition within (lo hi x : Q) : Prop := lo <= x /\ x <= hi.

(** A series of [compute(input_val, now)] calls on one controller: the
    controller after the last call and what each call returned. *)
Fixpoint compute_all (self : PIDController) (calls : list (Q * Q))
  : PIDController * list (result Q) :=
  match calls with
  | [] => (self, [])
  | (input_val, now) :: calls =>
      let (self, r) := compute self input_val (Some now) now in
      let (self, rs) := compute_all self calls in
      (self, r :: rs)
  end.

(** An enabled controller whose limits are ordered, whose sample time is
    positive and whose limits hold what it will return next: the stored
    output once initialized, the start range 35..60 before. *)
Definition armed (self : PIDController) : Prop :=
  auto_mode self = true /\
  output_min self <= output_max self /\
  0 < sample_time self /\
  (initialized self = true ->
   within (output_min self) (output_max self) (last_output self)) /\
  (initialized self = false ->
   output_min self <= 35.0 /\ 60.0 <= output_max self).

End PID.

(** ** Values, hardware and the effects of the two backends *)

(** A Python number with its type: the loops mix [int] and [float]. *)
Inductive num : Set :=
| NInt (z : Z)
| NFloat (q : Q).

Definition num_val (n : num) : Q :=
  match n with
  | NInt z => inject_Z z
  | NFloat q => q
  end.

(** [min(a, b)] and [max(a, b)] on numbers of either type: the comparison is
    numeric, the result is one of the two arguments, type included. *)
Definition num_min (a b : num) : num := if Qltb (num_val b) (num_val a) then b else a.
Definition num_max (a b : num) : num := if Qltb (num_val a) (num_val b) then b else a.

(** A value stored in a sensor dictionary. *)
Inductive pyval : Set :=
| VNum (n : num)
| VStr (s : string)
| VNone.

(** A sensor dictionary; [current_temp = None] is a dictionary without the
    key. *)
Record sensor : Set := mkSensor {
  sensor_id : string;
  sensor_name : string;
  current_temp : option pyval;
  sensor_unit : string;
  sensor_status : string
}.

(** The [status] dictionary handed to the callback. *)
Record status : Set := mkStatus {
  st_temperature : pyval;
  st_target : Q;
  st_fan_speed : num
}.

(** What the process does to the outside, in order.  [EvSetFanSpeed] marks
    an entry into [set_fan_speed], with its argument. *)
Inductive event : Set :=
| EvIpmitool (cmd : string) (ok : bool)
| EvConnect (ok : bool)
| EvRawCommand (netfn cmd : Z) (data : list Z) (ok : bool)
| EvSetFanSpeed (percentage : num)
| EvCallback (s : status)
| EvSleep (secs : Q).

(** The outside world: [hw n] tells whether the [n]-th hardware exchange
    succeeds, [issued] counts the exchanges made, [trace] is the history.
    Calls to [print] are left out. *)
Record World : Type := mkWorld {
  hw : nat -> bool;
  issued : nat;
  trace : list event
}.

(** State (an object [S] and the world) and exceptions. *)
Definition M (S A : Type) : Type := S * World -> (S * World) * result A.

Definition ret {S A} (a : A) : M S A := fun s => (s, Ok a).
Definition raise {S A} (e : exn) : M S A := fun s => (s, Raise e).
Definition bind {S A B} (m : M S A) (k : A -> M S B) : M S B :=
  fun s => match m s with
           | (s', Ok a) => k a s'
           | (s', Raise e) => (s', Raise e)
           end.
(** [try: m  except Exception as e: h e]. *)
Definition try_except {S A} (m : M S A) (h : exn -> M S A) : M S A :=
  fun s => match m s with
           | (s', Ok a) => (s', Ok a)
           | (s', Raise e) => h e s'
           end.
Definition get {S} : M S S := fun s => (s, Ok (fst s)).
Definition put {S} (x : S) : M S unit := fun s => ((x, snd s), Ok tt).
Definition emit {S} (e : event) : M S unit :=
  fun s => let w := snd s in
           ((fst s, mkWorld (hw w) (issued w) (trace w ++ [e])), Ok tt).
(** One exchange with the hardware; [ev] records it with its outcome. *)
Definition exchange {S} (ev : bool -> event) : M S bool :=
  fun s => let w := snd s in
           let ok := hw w (issued w) in
           ((fst s, mkWorld (hw w) (Datatypes.S (issued w)) (trace w ++ [ev ok])), Ok ok).

Declare Scope monad_scope.
Delimit Scope monad_scope with monad.
Notation "x <- m ;; k" := (bind m (fun x => k))
  (at level 61, m at next level, right associativity) : monad_scope.
Notation "m ;; k" := (bind m (fun _ => k))
  (at level 61, right associativity) : monad_scope.

(** The trace entry of a sleep that takes place. *)
Definition sleep {S} (secs : Q) : M S unit := emit (EvSleep secs).

(** [format(percentage, 'x')]: lower-case hexadecimal of an [int]; a [float]
    has no such format code, which is a [ValueError]. *)
Definition format_x (percentage : num) : result string :=
  match percentage with
  | NInt 0%Z => Ok "0"%string
  | NInt (Zpos p) => Ok (HexString.Raw.of_pos p "")
  | NInt (Zneg p) => Ok ("-" ++ HexString.Raw.of_pos p "")%string
  | NFloat _ => Raise ValueError
  end.

(** The guard of both [set_fan_speed]s: [percentage < 0 or percentage > 100]. *)
Definition out_of_range (percentage : num) : bool :=
  Qltb (num_val percentage) 0 || Qltb 100 (num_val percentage).

(** [time.sleep(secs)]; a negative length is a [ValueError]. *)
Definition time_sleep {S} (secs : Q) : M S unit :=
  if Qltb secs 0 then raise ValueError else sleep secs.

(** The builtin [max] over a non-empty sequence of numbers: the first of the
    greatest elements. *)
Fixpoint max_from (m : num) (l : list num) : num :=
  match l with
  | [] => m
  | x :: l => max_from (if Qltb (num_val m) (num_val x) then x else m) l
  end.

(** One pass of a monitoring loop: what [get_temperature_sensors] yields in
    this pass and what [time.time()] reads inside [compute]. *)
Record tick (R : Type) : Type := mkTick {
  tick_sensors : R;
  tick_clock : Q
}.
Arguments mkTick {R}.
Arguments tick_sensors {R}.
Arguments tick_clock {R}.

(** [self.monitor_thread] as [stop_temperature_monitoring] finds it: [None]
    before any start, otherwise a [threading.Thread] that has finished or is
    alive; an alive thread may be the very thread that calls, as when the
    callback of the loop stops the monitoring. *)
Inductive thread : Set :=
| Finished
| Alive (current : bool).

Definition is_alive (t : thread) : bool :=
  match t with
  | Alive _ => true
  | Finished => false
  end.

(** [t.join(2.0)]: waits for the thread, two seconds at most, and then
    returns, whether the thread has finished or not; joining the current
    thread raises [RuntimeError].  The wait leaves no trace. *)
Definition join {S} (t : thread) : M S unit :=
  match t with
  | Alive true => raise RuntimeError
  | _ => ret tt
  end.

(** [if self.monitor_thread and self.monitor_thread.is_alive():
        self.monitor_thread.join(2.0)]. *)
Definition join_if_alive {S} (monitor_thread : option thread) : M S unit :=
  match monitor_thread with
  | Some t => if is_alive t then join t else ret tt
  | None => ret tt
  end.

(** ** ipmitool.py *)

Module IPMITool.
Import PID.

Record DellIPMIToolFanController : Set := mkController {
  pid : PIDController;
  target_temp : Q;
  monitor_interval : Q
}.

Definition Ctl := DellIPMIToolFanController.

Definition DELL_CMD_ENABLE_MANUAL_FAN : string := "raw 0x30 0x30 0x01 0x00".
Definition DELL_CMD_SET_FAN_SPEED : string := "raw 0x30 0x30 0x02 0xff".
Definition DELL_CMD_ENABLE_AUTO_FAN : string := "raw 0x30 0x30 0x01 0x01".

(** [__init__(verify=False)]. *)
Definition init (clock : Q) : Ctl := mkController (default_pid clock) 60.0 30.0.

(** [subprocess.run] of ipmitool; a failed run is a [RuntimeError]. *)
Definition _run_command (command : string) : M Ctl unit :=
  (ok <- exchange (EvIpmitool command) ;;
   if ok then ret tt else raise RuntimeError)%monad.

Definition _set_manual_mode : M Ctl unit :=
  try_except (_run_command DELL_CMD_ENABLE_MANUAL_FAN)
             (fun _ => raise RuntimeError).

Definition set_automatic_control : M Ctl unit :=
  try_except (_run_command DELL_CMD_ENABLE_AUTO_FAN)
             (fun _ => raise RuntimeError).

(** The sensors that pass
    ["current_temp" in sensor and isinstance(sensor["current_temp"], (int, float))]. *)
Fixpoint valid_temps (temp_sensors : list sensor) : list num :=
  match temp_sensors with
  | [] => []
  | s :: rest =>
      match current_temp s with
      | Some (VNum n) => n :: valid_temps rest
      | _ => valid_temps rest
      end
  end.

(** [get_highest_temperature], as a function of what
    [get_temperature_sensors] returned (itself [[]] on any error).  Nothing
    in the body raises, so the outer [except] is not reached. *)
Definition get_highest_temperature (temp_sensors : list sensor) : num :=
  match temp_sensors with
  | [] => NFloat 60.0
  | _ =>
      match valid_temps temp_sensors with
      | [] => NFloat 60.0
      | t :: temps => max_from t temps
      end
  end.

Definition set_fan_speed (percentage : num) : M Ctl unit :=
  (emit (EvSetFanSpeed percentage) ;;
   if out_of_range percentage then raise ValueError
   else
     try_except
       (_set_manual_mode ;;
        match format_x percentage with
        | Raise e => raise e
        | Ok hex_percentage =>
            let cmd := (DELL_CMD_SET_FAN_SPEED ++ " 0x" ++ hex_percentage)%string in
            _run_command cmd ;;
            time_sleep 0.5
        end)
       (fun _ => raise RuntimeError))%monad.

Definition configure_pid (self : Ctl) (kp ki kd min_fan_speed max_fan_speed : Q)
  : Ctl :=
  let p := set_tunings (pid self) kp ki kd in
  let p := set_output_limits p min_fan_speed max_fan_speed in
  mkController p (target_temp self) (monitor_interval self).

Definition set_target_temperature (self : Ctl) (temp : Q) : Ctl :=
  mkController (set_setpoint (pid self) temp) temp (monitor_interval self).


(** [self.pid.compute(current_temp)], [now] left to [time.time()]. *)
Definition pid_compute (input_val : Q) (clock : Q) : M Ctl Q :=
  fun s =>
    let self := fst s in
    let (p, r) := compute (pid self) input_val None clock in
    ((mkController p (target_temp self) (monitor_interval self), snd s), r).

Definition max_consecutive_errors : Z := 3.

(** [callback(status)] inside its own [try]: whatever it raises is
    swallowed. *)
Definition call_callback (callback : option (status -> result unit))
  (st : status) : M Ctl unit :=
  match callback with
  | Some _ => emit (EvCallback st)
  | None => ret tt
  end.

(** The [try] block of one pass of [_temperature_monitor_loop], up to and
    including the reset of the counter; it yields the fan speed it applied.
    [compute] returns a float, never [None], so the [is None] branch is
    not taken. *)
Definition loop_try (callback : option (status -> result unit))
  (t : tick (list sensor)) : M Ctl num :=
  (let current_temp := get_highest_temperature (tick_sensors t) in
   computed_speed <- pid_compute (num_val current_temp) (tick_clock t) ;;
   let fan_speed := NInt (py_int computed_speed) in
   self <- get ;;
   let fan_speed :=
     num_max (num_min fan_speed (NFloat (output_max (pid self))))
             (NFloat (output_min (pid self))) in
   set_fan_speed fan_speed ;;
   call_callback callback
     (mkStatus (VNum current_temp) (target_temp self) fan_speed) ;;
   ret fan_speed)%monad.

(** The [except] block: the counter is a local of the loop. *)
Definition loop_except (consecutive_errors : Z) : M Ctl Z :=
  (let consecutive_errors := (consecutive_errors + 1)%Z in
   (if (max_consecutive_errors <=? consecutive_errors)%Z then
      try_except (set_fan_speed (NInt 70)) (fun _ => ret tt)
    else ret tt) ;;
   time_sleep (inject_Z (5 + (consecutive_errors * 3))) ;;
   ret consecutive_errors)%monad.

(** One pass of the [while self.monitoring] loop, from the counter before to
    the counter after.  The counter is reset inside the [try] block, before
    the closing [time.sleep]: an exception of that sleep finds it at 0. *)
Definition loop_pass (callback : option (status -> result unit))
  (consecutive_errors : Z) (t : tick (list sensor)) : M Ctl Z :=
  fun s =>
    match loop_try callback t s with
    | (s', Raise _) => loop_except consecutive_errors s'
    | (s', Ok _) =>
        let consecutive_errors := 0%Z in
        try_except
          (self <- get ;;
           time_sleep (monitor_interval self) ;;
           ret consecutive_errors)%monad
          (fun _ => loop_except consecutive_errors) s'
    end.

(** The loop runs one pass per tick: [self.monitoring] is read true once per
    element of [ticks] and false afterwards. *)
Fixpoint loop_from (callback : option (status -> result unit))
  (consecutive_errors : Z) (ticks : list (tick (list sensor))) : M Ctl Z :=
  match ticks with
  | [] => ret consecutive_errors
  | t :: ticks =>
      (ce <- loop_pass callback consecutive_errors t ;;
       loop_from callback ce ticks)%monad
  end.

Definition _temperature_monitor_loop (callback : option (status -> result unit))
  (ticks : list (tick (list sensor))) : M Ctl Z :=
  loop_from callback 0%Z ticks.

(** The attributes that the entry points of monitoring read and write next
    to the ones above: [self.monitoring] and [self.connected]. *)
Record Session : Set := mkSession {
  ctl : Ctl;
  monitoring : bool;
  connected : bool
}.

(** A method of the controller run on the whole object. *)
Definition lift {A} (m : M Ctl A) : M Session A :=
  fun s =>
    let self := fst s in
    match m (ctl self, snd s) with
    | ((c, w), r) => ((mkSession c (monitoring self) (connected self), w), r)
    end.

Definition set_monitoring (b : bool) : M Session unit :=
  fun s => ((mkSession (ctl (fst s)) b (connected (fst s)), snd s), Ok tt).

Definition set_connected (b : bool) : M Session unit :=
  fun s => ((mkSession (ctl (fst s)) (monitoring (fst s)) b, snd s), Ok tt).

(** A pure update of the controller attributes. *)
Definition update_ctl (f : Ctl -> Ctl) : M Session unit :=
  fun s =>
    ((mkSession (f (ctl (fst s))) (monitoring (fst s)) (connected (fst s)),
      snd s), Ok tt).

(** The probes of [test_connection], in order of preference. *)
Definition probe_commands : list string :=
  ["chassis status"; "sensor reading"; "sdr list"; "mc info"]%string.

(** The [for cmd in commands] of [test_connection]: [reply cmd] is the
    stripped output of [cmd] when it runs; a failed or silent command moves
    on to the next, and the end of the list is the [RuntimeError] raised
    after the loop. *)
Fixpoint try_commands (reply : string -> string) (commands : list string)
  : M Session bool :=
  match commands with
  | [] => raise RuntimeError
  | cmd :: commands =>
      fun s =>
        match lift (_run_command cmd) s with
        | (s', Ok _) =>
            if (String.length (reply cmd) =? 0)%nat
            then try_commands reply commands s'
            else (set_connected true ;; ret true)%monad s'
        | (s', Raise _) => try_commands reply commands s'
        end
  end.

Definition test_connection (reply : string -> string) : M Session bool :=
  try_except (try_commands reply probe_commands)
             (fun _ => set_connected false ;; raise RuntimeError)%monad.


(** [stop_temperature_monitoring], given what [self.monitor_thread] is at
    the call.  The join stands outside any [try]: what it raises leaves the
    method at once.  The events are those of the call itself. *)
Definition stop_temperature_monitoring (monitor_thread : option thread)
  : M Session unit :=
  (self <- get ;;
   if negb (monitoring self) then ret tt
   else
     set_monitoring false ;;
     join_if_alive monitor_thread ;;
     update_ctl (fun c =>
       mkController (set_auto_mode (pid c) false None)
                    (target_temp c) (monitor_interval c)) ;;
     try_except (lift set_automatic_control) (fun _ => ret tt))%monad.

End IPMITool.

(** ** ipmi.py *)

Module IPMI.
Import PID.

Record DellIPMIFanController : Set := mkController {
  pid : PIDController;
  target_temp : Q;
  monitor_interval : Q;
  connected : bool
}.

Definition Ctl := DellIPMIFanController.

Definition IPMI_DELL_OEM_NETFN : Z := 0x30.
Definition IPMI_DELL_OEM_ENABLE_MANUAL_FAN_CMD : Z := 0x30.
Definition IPMI_DELL_OEM_SET_FAN_SPEED_CMD : Z := 0x31.
Definition IPMI_DELL_OEM_SET_AUTO_FAN_CMD : Z := 0x32.

Definition init (clock : Q) : Ctl :=
  mkController (default_pid clock) 60.0 30.0 false.

Definition set_connected (b : bool) : M Ctl unit :=
  (self <- get ;;
   put (mkController (pid self) (target_temp self) (monitor_interval self) b))%monad.

(** [connect]: the session set-up and [get_device_id] are one exchange. *)
Definition connect : M Ctl unit :=
  (ok <- exchange EvConnect ;;
   if ok then set_connected true
   else set_connected false ;; raise RuntimeError)%monad.

Definition ensure_connected : M Ctl unit :=
  (self <- get ;;
   if negb (connected self) then connect else ret tt)%monad.

(** [self.ipmi.raw_command(netfn, cmd, *data)]. *)
Definition raw_command (netfn cmd : Z) (data : list Z) : M Ctl unit :=
  (ok <- exchange (EvRawCommand netfn cmd data) ;;
   if ok then ret tt else raise RuntimeError)%monad.

(** [get_temperature_sensors]; [sdr] is the outcome of walking the SDR
    repository once connected. *)
Definition get_temperature_sensors (sdr : result (list sensor))
  : M Ctl (list sensor) :=
  (ensure_connected ;;
   match sdr with
   | Ok temps => ret temps
   | Raise _ => raise RuntimeError
   end)%monad.

(** [a > b] on sensor values: numbers compare by value, strings by code
    point, anything else is a [TypeError]. *)
Definition py_gt (a b : pyval) : result bool :=
  match a, b with
  | VNum x, VNum y => Ok (Qltb (num_val y) (num_val x))
  | VStr x, VStr y => Ok (String.ltb y x)
  | _, _ => Raise TypeError
  end.

(** [max(sensor["current_temp"] for sensor in rest)], [m] being the greatest
    value so far: a missing key is a [KeyError]. *)
Fixpoint max_gen (m : pyval) (rest : list sensor) : result pyval :=
  match rest with
  | [] => Ok m
  | s :: rest =>
      match current_temp s with
      | None => Raise KeyError
      | Some v =>
          match py_gt v m with
          | Raise e => Raise e
          | Ok b => max_gen (if b then v else m) rest
          end
      end
  end.

(** The body of [get_highest_temperature] after the sensors were read. *)
Definition highest_of (temp_sensors : list sensor) : result pyval :=
  match temp_sensors with
  | [] => Ok (VNum (NFloat 0.0))
  | s :: rest =>
      match current_temp s with
      | None => Raise KeyError
      | Some v => max_gen v rest
      end
  end.

Definition get_highest_temperature (sdr : result (list sensor)) : M Ctl pyval :=
  (temp_sensors <- get_temperature_sensors sdr ;;
   match highest_of temp_sensors with
   | Ok max_temp => ret max_temp
   | Raise e => raise e
   end)%monad.

Definition _set_manual_mode : M Ctl unit :=
  raw_command IPMI_DELL_OEM_NETFN IPMI_DELL_OEM_ENABLE_MANUAL_FAN_CMD [0x01%Z].

Definition set_automatic_control : M Ctl unit :=
  (ensure_connected ;;
   raw_command IPMI_DELL_OEM_NETFN IPMI_DELL_OEM_SET_AUTO_FAN_CMD [0x01%Z])%monad.

Definition set_fan_speed (percentage : Z) : M Ctl unit :=
  (emit (EvSetFanSpeed (NInt percentage)) ;;
   ensure_connected ;;
   if out_of_range (NInt percentage) then raise ValueError
   else
     _set_manual_mode ;;
     raw_command IPMI_DELL_OEM_NETFN IPMI_DELL_OEM_SET_FAN_SPEED_CMD [percentage])%monad.

Definition configure_pid (self : Ctl) (kp ki kd min_fan_speed max_fan_speed : Q)
  : Ctl :=
  let p := set_tunings (pid self) kp ki kd in
  let p := set_output_limits p min_fan_speed max_fan_speed in
  mkController p (target_temp self) (monitor_interval self) (connected self).

Definition set_target_temperature (self : Ctl) (temp : Q) : Ctl :=
  mkController (set_setpoint (pid self) temp) temp (monitor_interval self)
               (connected self).

(** [self.pid.compute(current_temp)]. *)
Definition pid_compute (current_temp : pyval) (clock : Q) : M Ctl Q :=
  fun s =>
    let self := fst s in
    match current_temp with
    | VNum n =>
        let (p, r) := compute (pid self) (num_val n) None clock in
        ((mkController p (target_temp self) (monitor_interval self)
                       (connected self), snd s), r)
    | _ => (s, compute_nonnumeric (pid self) None clock)
    end.

(** [callback(status)], not guarded here: its exception is the pass's. *)
Definition call_callback (callback : option (status -> result unit))
  (st : status) : M Ctl unit :=
  match callback with
  | Some cb =>
      (emit (EvCallback st) ;;
       match cb st with
       | Ok _ => ret tt
       | Raise e => raise e
       end)%monad
  | None => ret tt
  end.

(** The [try] block of one pass of [_temperature_monitor_loop]; it yields
    the fan speed it applied. *)
Definition loop_try (callback : option (status -> result unit))
  (t : tick (result (list sensor))) : M Ctl Z :=
  (current_temp <- get_highest_temperature (tick_sensors t) ;;
   computed <- pid_compute current_temp (tick_clock t) ;;
   let fan_speed := py_int computed in
   set_fan_speed fan_speed ;;
   self <- get ;;
   call_callback callback
     (mkStatus current_temp (target_temp self) (NInt fan_speed)) ;;
   time_sleep (monitor_interval self) ;;
   ret fan_speed)%monad.

Definition loop_pass (callback : option (status -> result unit))
  (t : tick (result (list sensor))) : M Ctl unit :=
  try_except (_ <- loop_try callback t ;; ret tt)%monad
             (fun _ => time_sleep 5).

Fixpoint _temperature_monitor_loop (callback : option (status -> result unit))
  (ticks : list (tick (result (list sensor)))) : M Ctl unit :=
  match ticks with
  | [] => ret tt
  | t :: ticks =>
      (loop_pass callback t ;; _temperature_monitor_loop callback ticks)%monad
  end.

(** The controller with its [self.monitoring] flag. *)
Record Session : Set := mkSession {
  ctl : Ctl;
  monitoring : bool
}.

Definition lift {A} (m : M Ctl A) : M Session A :=
  fun s =>
    let self := fst s in
    match m (ctl self, snd s) with
    | ((c, w), r) => ((mkSession c (monitoring self), w), r)
    end.

Definition set_monitoring (b : bool) : M Session unit :=
  fun s => ((mkSession (ctl (fst s)) b, snd s), Ok tt).

Definition update_ctl (f : Ctl -> Ctl) : M Session unit :=
  fun s => ((mkSession (f (ctl (fst s))) (monitoring (fst s)), snd s), Ok tt).

(** [stop_temperature_monitoring], given what [self.monitor_thread] is at
    the call.  Neither the join nor the restore command is guarded here:
    what either raises leaves the method as it is, for the restore command
    the exception of [raw_command].  The events are those of the call
    itself. *)
Definition stop_temperature_monitoring (monitor_thread : option thread)
  : M Session unit :=
  (self <- get ;;
   if negb (monitoring self) then ret tt
   else
     set_monitoring false ;;
     join_if_alive monitor_thread ;;
     update_ctl (fun c =>
       mkController (set_auto_mode (pid c) false None)
                    (target_temp c) (monitor_interval c) (connected c)) ;;
     self <- get ;;
     if connected (ctl self) then lift set_automatic_control else ret tt)%monad.

End IPMI.

(** ** Observing a trace, and the scenarios of the concrete runs *)

(** The arguments of the [set_fan_speed] calls of a trace, in order. *)
Fixpoint calls_of (evs : list event) : list num :=
  match evs with
  | [] => []
  | EvSetFanSpeed p :: evs => p :: calls_of evs
  | _ :: evs => calls_of evs
  end.

(** A fan-speed command that the hardware accepted, of either backend. *)
Definition speed_set (e : event) : bool :=
  match e with
  | EvIpmitool cmd ok => ok && String.prefix IPMITool.DELL_CMD_SET_FAN_SPEED cmd
  | EvRawCommand _ cmd _ ok => ok && (cmd =? IPMI.IPMI_DELL_OEM_SET_FAN_SPEED_CMD)%Z
  | _ => false
  end.

(** A hardware exchange of any kind. *)
Definition is_exchange (e : event) : bool :=
  match e with
  | EvIpmitool _ _ | EvConnect _ | EvRawCommand _ _ _ _ => true
  | _ => false
  end.

(** Hardware that always answers, that never answers, and that answers from
    its [n]-th exchange on. *)
Definition steady_world : World := mkWorld (fun _ => true) 0 [].
Definition dead_world : World := mkWorld (fun _ => false) 0 [].
Definition recovering_world (n : nat) : World := mkWorld (fun k => Nat.leb n k) 0 [].

(** One CPU sensor reading 65 degrees. *)
Definition cpu_65 : sensor :=
  mkSensor "05h" "CPU Temp" (Some (VNum (NFloat 65.0))) "degrees C" "ok".

(** The two controllers once [start_temperature_monitoring] has run, with
    the default limits and with limits 70..100. *)
Definition tool_started : IPMITool.Ctl :=
  IPMITool.mkController PID.started_pid 60.0 30.0.
Definition tool_narrow : IPMITool.Ctl :=
  IPMITool.mkController PID.narrow_pid 60.0 30.0.
Definition ipmi_started : IPMI.Ctl :=
  IPMI.mkController PID.started_pid 60.0 30.0 true.
Definition ipmi_narrow : IPMI.Ctl :=
  IPMI.mkController PID.narrow_pid 60.0 30.0 true.





(** * Properties *)

(** ** Comparisons and clamps *)

Lemma Qltb_spec (a b : Q) : BoolSpec (a < b) (b <= a) (Qltb a b).
Proof.
  unfold Qltb. destruct (Qle_bool b a) eqn:E; constructor.
  - now apply Qle_bool_iff.
  - apply Qnot_le_lt. intro H. apply Qle_bool_iff in H. congruence.
Qed.

Lemma Qleb_spec (a b : Q) : BoolSpec (a <= b) (b < a) (Qle_bool a b).
Proof.
  destruct (Qle_bool a b) eqn:E; constructor.
  - now apply Qle_bool_iff.
  - apply Qnot_le_lt. intro H. apply Qle_bool_iff in H. congruence.
Qed.

Lemma Qeqb_spec (a b : Q) : BoolSpec (a == b) (~ a == b) (Qeq_bool a b).
Proof.
  destruct (Qeq_bool a b) eqn:E; constructor.
  - now apply Qeq_bool_eq.
  - now apply Qeq_bool_neq.
Qed.

Lemma Qltb_true (a b : Q) : Qltb a b = true -> a < b.
Proof. destruct (Qltb_spec a b); [trivial | discriminate]. Qed.

Lemma Qltb_false (a b : Q) : Qltb a b = false -> b <= a.
Proof. destruct (Qltb_spec a b); [discriminate | trivial]. Qed.

Lemma Qleb_true (a b : Q) : Qle_bool a b = true -> a <= b.
Proof. destruct (Qleb_spec a b); [trivial | discriminate]. Qed.

Lemma Qleb_false (a b : Q) : Qle_bool a b = false -> b < a.
Proof. destruct (Qleb_spec a b); [discriminate | trivial]. Qed.

(** Case analysis on a comparison of the goal or of a hypothesis, everywhere
    it occurs. *)
Ltac qsplit_lt a b :=
  let E := fresh "E" in
  destruct (Qltb a b) eqn:E in *;
  [apply Qltb_true in E | apply Qltb_false in E].
Ltac qsplit_le a b :=
  let E := fresh "E" in
  destruct (Qle_bool a b) eqn:E in *;
  [apply Qleb_true in E | apply Qleb_false in E].
Ltac qsplit_eq a b :=
  let E := fresh "E" in
  destruct (Qeq_bool a b) eqn:E in *;
  [apply Qeq_bool_eq in E | apply Qeq_bool_neq in E].
Ltac qcase :=
  match goal with
  | |- context [Qltb ?a ?b] => qsplit_lt a b
  | |- context [Qle_bool ?a ?b] => qsplit_le a b
  | |- context [Qeq_bool ?a ?b] => qsplit_eq a b
  | _ : context [Qltb ?a ?b] |- _ => qsplit_lt a b
  | _ : context [Qle_bool ?a ?b] |- _ => qsplit_le a b
  | _ : context [Qeq_bool ?a ?b] |- _ => qsplit_eq a b
  end.

Ltac qcases := repeat qcase.

Lemma py_min_cases (a b : Q) :
  (b < a /\ py_min a b = b) \/ (a <= b /\ py_min a b = a).
Proof. unfold py_min. qcase; auto. Qed.

Lemma py_max_cases (a b : Q) :
  (a < b /\ py_max a b = b) \/ (b <= a /\ py_max a b = a).
Proof. unfold py_max. qcase; auto. Qed.

(** [max(min(x, hi), lo)] lands in [[lo, hi]] as soon as [lo <= hi]. *)
Lemma clamp_within (x lo hi : Q) :
  lo <= hi -> PID.within lo hi (py_max (py_min x hi) lo).
Proof.
  intro H. unfold PID.within, py_max, py_min. qcases; split; lra.
Qed.

(** A value already inside is left alone by the clamp. *)
Lemma clamp_id (x lo hi : Q) :
  PID.within lo hi x -> py_max (py_min x hi) lo = x.
Proof.
  intros [H1 H2]. unfold py_max, py_min. qcases; try reflexivity; exfalso; lra.
Qed.

Lemma Qabs_le_iff (x y : Q) : Qabs x <= y <-> - y <= x /\ x <= y.
Proof. apply Qabs_Qle_condition. Qed.

Lemma Qabs_lt_iff (x y : Q) : Qabs x < y <-> - y < x /\ x < y.
Proof. apply Qabs_Qlt_condition. Qed.

Lemma Qabs_gt_cases (x y : Q) : y < Qabs x -> x < - y \/ y < x.
Proof.
  intro H. destruct (Qlt_le_dec y x) as [|H1]; [now right|].
  destruct (Qlt_le_dec x (- y)) as [|H2]; [now left|].
  exfalso. apply (Qlt_irrefl y). eapply Qlt_le_trans; [exact H|].
  apply Qabs_le_iff. split; assumption.
Qed.

(** ** The rate limiter *)

Lemma max_change_of_cases (error time_change : Q) :
  (Qabs error < 2.0 /\ PID.max_change_of error time_change = 5.0 * time_change * 0.5) \/
  (2.0 <= Qabs error /\ PID.max_change_of error time_change = 5.0 * time_change).
Proof. unfold PID.max_change_of. qcase; auto. Qed.

Lemma max_change_of_nonneg (error time_change : Q) :
  0 <= time_change -> 0 <= PID.max_change_of error time_change.
Proof.
  intro H. destruct (max_change_of_cases error time_change) as [[_ ->]|[_ ->]]; lra.
Qed.

(** The limited output is never further than [max_change] from the previous
    one. *)
Lemma rate_limit_bound (last output max_change : Q) :
  0 <= max_change ->
  Qabs (PID.rate_limit last output max_change - last) <= max_change.
Proof.
  intro H. unfold PID.rate_limit. qcase.
  - qcase; apply Qabs_le_iff; split; lra.
  - assumption.
Qed.

(** The limited output lies between the previous output and the requested
    one: an interval holding both holds it too. *)
Lemma rate_limit_within (lo hi last output max_change : Q) :
  0 <= max_change ->
  PID.within lo hi last -> PID.within lo hi output ->
  PID.within lo hi (PID.rate_limit last output max_change).
Proof.
  intros H [L1 L2] [O1 O2]. unfold PID.rate_limit. qcase; [|split; assumption].
  apply Qabs_gt_cases in E. qcase; split; lra.
Qed.

(** ** pid.py: the controller *)

Section PIDFacts.
Import PID.

Variable s : PIDController.

(** C7.  [set_output_limits(lo, hi)] with [lo > hi] changes nothing; with
    [lo <= hi] it stores both limits, and in auto mode it replaces the
    integral by its clamp, which lies in [[lo, hi]]; out of auto mode the
    integral is kept. *)
Theorem set_output_limits_spec (lo hi : Q) :
  (hi < lo -> set_output_limits s lo hi = s) /\
  (lo <= hi ->
   let s' := set_output_limits s lo hi in
   output_min s' = lo /\ output_max s' = hi /\
   (auto_mode s = true ->
    integral s' = py_max (py_min (integral s) hi) lo /\
    within lo hi (integral s')) /\
   (auto_mode s = false -> integral s' = integral s)).
Proof.
  unfold set_output_limits. split; intro H.
  - qcase; [reflexivity | lra].
  - qcase; [lra|]. cbn. destruct (auto_mode s); cbn.
    + split; [reflexivity|]. split; [reflexivity|].
      split; [|discriminate]. intros _.
      split; [reflexivity | apply (clamp_within _ _ _ H)].
    + split; [reflexivity|]. split; [reflexivity|].
      split; [discriminate | reflexivity].
Qed.

(** C10.  [compute] writes none of [kp], [ki], [kd], [setpoint],
    [output_min], [output_max], [sample_time], [auto_mode], whatever branch
    it takes and also when it raises. *)
Theorem compute_keeps_config (input_val : Q) (now : option Q) (clock : Q) :
  config (fst (compute s input_val now clock)) = config s.
Proof.
  unfold compute.
  destruct (auto_mode s) eqn:Ea; cbn [negb]; [|reflexivity].
  destruct (Qltb _ (sample_time s) && initialized s); [reflexivity|].
  destruct (initialized s); cbn [negb].
  - destruct (Qeq_bool _ 0); [reflexivity|].
    unfold config. cbn. reflexivity.
  - destruct (Qltb 0 _); unfold config; cbn; reflexivity.
Qed.

(** The regular branch of [compute], stage by stage. *)
Lemma compute_regular (input_val : Q) (now : option Q) (clock : Q) :
  auto_mode s = true -> initialized s = true ->
  sample_time s <= elapsed s now clock -> ~ elapsed s now clock == 0 ->
  let time_change := elapsed s now clock in
  let error := input_val - setpoint s in
  let s1 := with_integral (integral_update s error time_change) s in
  let output :=
    rate_limit (last_output s)
      (limit_output s1 (blended_output s1 input_val error time_change))
      (max_change_of error time_change) in
  compute s input_val now clock =
  (with_last_time (match now with Some t => t | None => clock end)
     (with_last_output output
        (with_last_input input_val (with_last_error error s1))),
   Ok output).
Proof.
  intros Ea Ei He H0. unfold compute, elapsed in *. rewrite Ea, Ei.
  cbn [negb andb].
  destruct (Qltb_spec (match now with Some t => t | None => clock end -
                       last_time s) (sample_time s)) as [Hlt|_];
    [exfalso; lra|].
  destruct (Qeqb_spec (match now with Some t => t | None => clock end -
                       last_time s) 0) as [Hz|_]; [contradiction|].
  reflexivity.
Qed.

(** The early return: too soon after the last update. *)
Lemma compute_too_soon (input_val : Q) (now : option Q) (clock : Q) :
  auto_mode s = true -> initialized s = true ->
  elapsed s now clock < sample_time s ->
  compute s input_val now clock = (s, Ok (last_output s)).
Proof.
  intros Ea Ei He. unfold compute, elapsed in *. rewrite Ea, Ei.
  cbn [negb andb].
  destruct (Qltb_spec (match now with Some t => t | None => clock end -
                       last_time s) (sample_time s)) as [_|Hge];
    [reflexivity | exfalso; lra].
Qed.

(** Disabled: [0.0], whatever the limits, and no attribute written. *)
Lemma compute_disabled (input_val : Q) (now : option Q) (clock : Q) :
  auto_mode s = false -> compute s input_val now clock = (s, Ok 0.0).
Proof. intro Ea. unfold compute. now rewrite Ea. Qed.

(** The first call of an enabled controller: the bumpless start. *)
Lemma compute_first (input_val : Q) (now : option Q) (clock : Q) :
  auto_mode s = true -> initialized s = false ->
  let error := input_val - setpoint s in
  let out :=
    if Qltb 0 error then 35.0 + (py_min error 15.0 / 15.0 * 25.0)
    else output_min s in
  compute s input_val now clock =
  (with_initialized true
     (with_last_time (match now with Some t => t | None => clock end)
        (with_last_input input_val
           (with_last_error error
              (with_integral (out * 0.3) (with_last_output out s))))),
   Ok out).
Proof.
  intros Ea Ei. unfold compute. rewrite Ea, Ei. cbn [negb].
  rewrite andb_false_r. destruct (Qltb 0 (input_val - setpoint s)); reflexivity.
Qed.

(** The start value for a positive error lies in [[35, 60]]. *)
Lemma initial_output_range (error : Q) :
  0 < error -> within 35.0 60.0 (35.0 + (py_min error 15.0 / 15.0 * 25.0)).
Proof.
  intro H. unfold within, Qdiv. change (/ 15.0) with (10 # 150).
  destruct (py_min_cases error 15.0) as [[? ->]|[? ->]]; split; lra.
Qed.

(** C3.  The first [compute] of an enabled, not yet initialized controller
    returns [35 + min(error, 15)/15 * 25] when [error = input_val - setpoint]
    is positive, a value of [[35, 60]], and [output_min] otherwise; the
    integral is seeded with 0.3 times the returned value; the controller is
    marked initialized and the returned value is stored as [last_output]
    as it is, without blend, limits or rate limit.  With setpoint 60 and
    input 65 the value is 130/3, between 43.3 and 43.4. *)
Theorem first_compute_bumpless (input_val : Q) (now : option Q) (clock : Q) :
  auto_mode s = true -> initialized s = false ->
  let error := input_val - setpoint s in
  let s' := fst (compute s input_val now clock) in
  let r := snd (compute s input_val now clock) in
  (0 < error ->
   r = Ok (35.0 + (py_min error 15.0 / 15.0 * 25.0)) /\
   within 35.0 60.0 (35.0 + (py_min error 15.0 / 15.0 * 25.0)) /\
   integral s' == 0.3 * (35.0 + (py_min error 15.0 / 15.0 * 25.0))) /\
  (error <= 0 ->
   r = Ok (output_min s) /\ integral s' == 0.3 * output_min s) /\
  initialized s' = true /\
  r = Ok (last_output s') /\
  (setpoint s == 60.0 -> input_val == 65.0 ->
   exists out, r = Ok out /\ out == 130 # 3 /\ 43.3 <= out /\ out <= 43.4).
Proof.
  intros Ea Ei error s' r. subst s' r.
  rewrite (compute_first input_val now clock Ea Ei). cbn [fst snd].
  fold error. cbn [integral initialized last_output with_initialized
    with_last_time with_last_input with_last_error with_integral
    with_last_output].
  split; [|split; [|split; [reflexivity | split; [reflexivity|]]]].
  - intro H. destruct (Qltb_spec 0 error) as [_|Hle]; [|exfalso; lra].
    split; [reflexivity|]. split; [now apply initial_output_range | lra].
  - intro H. destruct (Qltb_spec 0 error) as [Hlt|_]; [exfalso; lra|].
    split; [reflexivity | lra].
  - intros Hs Hi. assert (He : error == 5) by (unfold error; lra).
    destruct (Qltb_spec 0 error) as [_|Hle]; [|exfalso; lra].
    eexists. split; [reflexivity|].
    destruct (py_min_cases error 15.0) as [[Hc _]|[_ ->]]; [exfalso; lra|].
    unfold Qdiv. change (/ 15.0) with (10 # 150). repeat split; lra.
Qed.

(** C1, as the code has it.  A disabled controller returns [0.0] whatever
    its limits.  An enabled controller with [output_min <= output_max] and a
    positive sample time returns a value of [[output_min, output_max]]
    provided that, once initialized, its [last_output] is in that interval
    and that, before, the interval holds the start range [[35, 60]]; the
    call stores such a [last_output] again and leaves the controller
    initialized. *)
Theorem compute_output_limits (input_val : Q) (now : option Q) (clock : Q) :
  let r := compute s input_val now clock in
  (auto_mode s = false -> snd r = Ok 0.0) /\
  (auto_mode s = true ->
   output_min s <= output_max s ->
   0 < sample_time s ->
   (initialized s = true ->
    within (output_min s) (output_max s) (last_output s)) ->
   (initialized s = false -> output_min s <= 35.0 /\ 60.0 <= output_max s) ->
   exists out,
     snd r = Ok out /\
     within (output_min s) (output_max s) out /\
     initialized (fst r) = true /\
     last_output (fst r) = out).
Proof.
  cbv zeta. split.
  - intro Ea. now rewrite compute_disabled.
  - intros Ea Hlim Hst Hlast Hstart.
    destruct (initialized s) eqn:Ei.
    + specialize (Hlast eq_refl).
      destruct (Qlt_le_dec (elapsed s now clock) (sample_time s)) as [Hsoon|He].
      * rewrite (compute_too_soon input_val now clock Ea Ei Hsoon).
        exists (last_output s). cbn [fst snd]. auto.
      * assert (H0 : ~ elapsed s now clock == 0) by lra.
        rewrite (compute_regular input_val now clock Ea Ei He H0).
        eexists. cbn [fst snd]. split; [reflexivity|].
        split; [|split; [exact Ei | reflexivity]].
        apply rate_limit_within.
        -- apply max_change_of_nonneg. lra.
        -- exact Hlast.
        -- unfold limit_output. cbn [output_max output_min with_integral].
           now apply clamp_within.
    + destruct (Hstart eq_refl) as [H35 H60].
      rewrite (compute_first input_val now clock Ea Ei). cbn [fst snd].
      eexists. split; [reflexivity|]. split; [|split; reflexivity].
      destruct (Qltb_spec 0 (input_val - setpoint s)) as [Hpos|_].
      * destruct (initial_output_range _ Hpos) as [A B]. split; lra.
      * split; lra.
Qed.

(** C2, as the code has it.  An initialized, enabled controller called
    [e >= sample_time] seconds after its last update, with [e > 0], returns
    a value no further than [5.0 * e] from [last_output], and no further
    than [2.5 * e] when [|input_val - setpoint| < 2.0].  The elapsed time is
    positive whenever the sample time is, as the constructor default and
    [set_sample_time] have it. *)
Theorem compute_rate_limited (input_val : Q) (now : option Q) (clock : Q) :
  auto_mode s = true -> initialized s = true ->
  0 < elapsed s now clock ->
  sample_time s <= elapsed s now clock ->
  exists out,
    snd (compute s input_val now clock) = Ok out /\
    Qabs (out - last_output s) <= 5.0 * elapsed s now clock /\
    (Qabs (input_val - setpoint s) < 2.0 ->
     Qabs (out - last_output s) <= 2.5 * elapsed s now clock).
Proof.
  intros Ea Ei Hst He.
  assert (H0 : ~ elapsed s now clock == 0) by lra.
  rewrite (compute_regular input_val now clock Ea Ei He H0).
  eexists. cbn [snd]. split; [reflexivity|].
  set (e := elapsed s now clock) in *.
  set (error := input_val - setpoint s).
  assert (Hb := rate_limit_bound (last_output s)
    (limit_output (with_integral (integral_update s error e) s)
       (blended_output (with_integral (integral_update s error e) s)
          input_val error e))
    (max_change_of error e) (max_change_of_nonneg error e ltac:(lra))).
  destruct (max_change_of_cases error e) as [[Hsmall Hm]|[Hbig Hm]];
    rewrite Hm in Hb |- *; (split; [lra | intro Hlt; lra]).
Qed.

(** A positive sample time stays positive: [set_sample_time] stores
    positive values only, and nothing else writes it. *)
Lemma sample_time_stays_positive (sample_time' : Q) :
  0 < sample_time s ->
  0 < sample_time (fst (set_sample_time s sample_time')).
Proof.
  intro H. unfold set_sample_time.
  destruct (Qltb_spec 0 sample_time') as [Hpos|_]; [|exact H].
  destruct (Qeq_bool (sample_time s) 0); [exact H|].
  destruct (Qeq_bool (sample_time' / sample_time s) 0); [exact H | exact Hpos].
Qed.

(** The regular update leaves a clamped integral behind. *)
Lemma integral_update_within (error time_change : Q) :
  output_min s <= output_max s ->
  within (output_min s) (output_max s) (integral_update s error time_change).
Proof. intro H. unfold integral_update. now apply clamp_within. Qed.

(** C4, as the code has it.  The integral lies within the output limits
    after the regular update of [compute] (enabled, initialized, a positive
    time of at least the sample time elapsed, [output_min <= output_max])
    and after a [set_output_limits(lo, hi)] accepted in auto mode.  The
    other writes are not clamped: the first [compute] seeds 0.3 times the
    value it returns, [initialize] stores 0.0, and
    [set_auto_mode(True, input)] from manual mode stores [last_output] (0.0
    without an input).  The early returns of [compute] and the other calls
    of [set_auto_mode] keep the integral. *)
Theorem integral_updates (input_val : Q) (now : option Q) (clock : Q)
  (lo hi : Q) (current_input : option Q) :
  (auto_mode s = true -> initialized s = true ->
   output_min s <= output_max s -> 0 < elapsed s now clock ->
   sample_time s <= elapsed s now clock ->
   within (output_min s) (output_max s)
          (integral (fst (compute s input_val now clock)))) /\
  (auto_mode s = true -> lo <= hi ->
   within lo hi (integral (set_output_limits s lo hi))) /\
  (auto_mode s = true -> initialized s = false ->
   exists out,
     snd (compute s input_val now clock) = Ok out /\
     integral (fst (compute s input_val now clock)) == 0.3 * out) /\
  integral (initialize s) = 0.0 /\
  (auto_mode s = false ->
   integral (set_auto_mode s true current_input) =
   match current_input with Some _ => last_output s | None => 0.0 end) /\
  (auto_mode s = true ->
   integral (set_auto_mode s true current_input) = integral s) /\
  integral (set_auto_mode s false current_input) = integral s /\
  (auto_mode s = false \/
   (initialized s = true /\ elapsed s now clock < sample_time s) ->
   integral (fst (compute s input_val now clock)) = integral s).
Proof.
  repeat apply conj.
  - intros Ea Ei Hlim Hst He.
    assert (H0 : ~ elapsed s now clock == 0) by lra.
    rewrite (compute_regular input_val now clock Ea Ei He H0). cbn.
    now apply integral_update_within.
  - intros Ea H. unfold set_output_limits.
    destruct (Qltb_spec hi lo); [exfalso; lra|].
    cbn. rewrite Ea. cbn. now apply clamp_within.
  - intros Ea Ei. rewrite (compute_first input_val now clock Ea Ei).
    eexists. cbn. split; [reflexivity | lra].
  - reflexivity.
  - intro Ea. unfold set_auto_mode. rewrite Ea.
    destruct current_input; reflexivity.
  - intro Ea. unfold set_auto_mode. rewrite Ea. reflexivity.
  - reflexivity.
  - intros [Ea|[Ei Hsoon]].
    + now rewrite compute_disabled.
    + destruct (auto_mode s) eqn:Ea.
      * now rewrite compute_too_soon.
      * now rewrite compute_disabled.
Qed.

(** Above 5 degrees of error the base response is the quadratic arc. *)
Lemma base_response_above (error : Q) :
  5.0 < error ->
  _calculate_base_response s error =
  75.0 + (py_min (error - 5.0) 10.0 / 10.0 * (py_min (error - 5.0) 10.0 / 10.0)
          * (output_max s - 75.0)).
Proof.
  intro H. unfold _calculate_base_response.
  destruct (Qleb_spec error (-1.0)); [exfalso; lra|].
  destruct (Qltb_spec error 0.0); [exfalso; lra|].
  destruct (Qleb_spec error 5.0); [exfalso; lra|]. reflexivity.
Qed.

(** The capped excess [min(error - 5, 10)] grows with the error and stays
    in [(0, 10]]. *)
Lemma capped_error_mono (e1 e2 : Q) :
  5.0 < e1 -> e1 <= e2 ->
  0 < py_min (e1 - 5.0) 10.0 /\
  py_min (e1 - 5.0) 10.0 <= py_min (e2 - 5.0) 10.0 /\
  py_min (e2 - 5.0) 10.0 <= 10.
Proof.
  intros H1 H2.
  destruct (py_min_cases (e1 - 5.0) 10.0) as [[? ->]|[? ->]];
    destruct (py_min_cases (e2 - 5.0) 10.0) as [[? ->]|[? ->]];
    repeat split; lra.
Qed.

(** C9, as the code has it.  With [output_max >= 75], the base response is
    monotonically increasing over errors above 5 and bounded above by
    [output_max] there. *)
Theorem base_response_above_5 (e1 e2 : Q) :
  75.0 <= output_max s ->
  (5.0 < e1 -> e1 < e2 ->
   _calculate_base_response s e1 <= _calculate_base_response s e2) /\
  (5.0 < e1 -> _calculate_base_response s e1 <= output_max s).
Proof.
  intro Hmax. split.
  - intros H1 H2.
    rewrite (base_response_above e1 H1).
    rewrite (base_response_above e2) by lra.
    destruct (capped_error_mono e1 e2 H1) as (Hc0 & Hc12 & Hc10); [lra|].
    set (c1 := py_min (e1 - 5.0) 10.0) in *.
    set (c2 := py_min (e2 - 5.0) 10.0) in *.
    unfold Qdiv. change (/ 10.0) with (10 # 100).
    assert (Hsq : c1 * (10 # 100) * (c1 * (10 # 100))
                  <= c2 * (10 # 100) * (c2 * (10 # 100))) by nra.
    set (q1 := c1 * (10 # 100) * (c1 * (10 # 100))) in *.
    set (q2 := c2 * (10 # 100) * (c2 * (10 # 100))) in *.
    nra.
  - intro H1.
    rewrite (base_response_above e1 H1).
    destruct (capped_error_mono e1 e1 H1) as (Hc0 & _ & Hc10); [lra|].
    set (c1 := py_min (e1 - 5.0) 10.0) in *.
    unfold Qdiv. change (/ 10.0) with (10 # 100).
    assert (Hsq : 0 <= c1 * (10 # 100) * (c1 * (10 # 100)) <= 1) by nra.
    set (q1 := c1 * (10 # 100) * (c1 * (10 # 100))) in *.
    nra.
Qed.

End PIDFacts.

(** ** pid.py: concrete runs *)

(** Closed comparisons of rationals, by evaluation. *)
Ltac qdecide :=
  vm_compute;
  first [ reflexivity
        | discriminate
        | let H := fresh in
          intro H; first [ discriminate H | apply H; reflexivity ] ].

(** C1 fails as stated, on each of the three returns it lists.  The default
    controller, disabled, returns 0.0 under limits 30..100.  With limits
    70..100 the first call on a reading of 65 returns 130/3, below 70, and
    the next call, one second later, returns 5 more, still below 70. *)
Lemma compute_outside_limits :
  (exists out,
     snd (PID.compute (PID.default_pid 0) 65.0 None 1.0) = Ok out /\
     ~ PID.within (PID.output_min (PID.default_pid 0))
                  (PID.output_max (PID.default_pid 0)) out) /\
  (exists out,
     snd (PID.compute PID.narrow_pid 65.0 None 1.0) = Ok out /\
     ~ PID.within (PID.output_min PID.narrow_pid)
                  (PID.output_max PID.narrow_pid) out) /\
  (exists out,
     snd (PID.compute (fst (PID.compute PID.narrow_pid 65.0 None 1.0))
                      65.0 None 2.0) = Ok out /\
     ~ PID.within (PID.output_min PID.narrow_pid)
                  (PID.output_max PID.narrow_pid) out).
Proof.
  repeat apply conj; eexists; (split; [vm_compute; reflexivity|]);
    intros [H _]; revert H; qdecide.
Qed.

(** [compute_output_limits] at the started default controller reading 65. *)
Lemma compute_output_limits_witness :
  exists out,
    snd (PID.compute PID.started_pid 65.0 None 1.0) = Ok out /\
    PID.within (PID.output_min PID.started_pid)
               (PID.output_max PID.started_pid) out /\
    PID.initialized (fst (PID.compute PID.started_pid 65.0 None 1.0)) = true /\
    PID.last_output (fst (PID.compute PID.started_pid 65.0 None 1.0)) = out.
Proof.
  apply (proj2 (compute_output_limits PID.started_pid 65.0 None 1.0)).
  - reflexivity.
  - qdecide.
  - qdecide.
  - intro H. vm_compute in H. discriminate H.
  - intros _. split; qdecide.
Defined.

(** [compute_rate_limited] on the state of [test_rate_limiting]: reading 70
    at time 100, one second after the last update. *)
Lemma compute_rate_limited_witness :
  exists out,
    snd (PID.compute PID.running_pid 70.0 None 100) = Ok out /\
    Qabs (out - PID.last_output PID.running_pid)
      <= 5.0 * PID.elapsed PID.running_pid None 100 /\
    (Qabs (70.0 - PID.setpoint PID.running_pid) < 2.0 ->
     Qabs (out - PID.last_output PID.running_pid)
       <= 2.5 * PID.elapsed PID.running_pid None 100).
Proof.
  apply (compute_rate_limited PID.running_pid 70.0 None 100).
  - reflexivity.
  - reflexivity.
  - qdecide.
  - qdecide.
Defined.

(** C2 fails as stated when the elapsed time is not positive, which
    [e >= sample_time] allows as soon as the sample time is not positive.
    A controller constructed with [sample_time=0] and called again at the
    time of its last update ([e = 0]) raises [ZeroDivisionError] in the
    derivative and returns nothing.  One constructed with [sample_time=-2]
    and called with a time one second before its last update ([e = -1])
    moves from 50 to 55, further than [5.0 * e = -5]. *)
Lemma compute_rate_limit_nonpositive_time :
  (PID.auto_mode (PID.timed_pid 0) = true /\
   PID.initialized (PID.timed_pid 0) = true /\
   PID.sample_time (PID.timed_pid 0) <= PID.elapsed (PID.timed_pid 0) (Some 0) 0 /\
   snd (PID.compute (PID.timed_pid 0) 70.0 (Some 0) 0)
   = Raise ZeroDivisionError) /\
  (PID.auto_mode (PID.timed_pid (-2)) = true /\
   PID.initialized (PID.timed_pid (-2)) = true /\
   PID.sample_time (PID.timed_pid (-2))
     <= PID.elapsed (PID.timed_pid (-2)) (Some (-1)) 0 /\
   exists out,
     snd (PID.compute (PID.timed_pid (-2)) 70.0 (Some (-1)) 0) = Ok out /\
     out == 55 /\
     ~ Qabs (out - PID.last_output (PID.timed_pid (-2)))
         <= 5.0 * PID.elapsed (PID.timed_pid (-2)) (Some (-1)) 0).
Proof.
  split.
  - repeat split; qdecide.
  - split; [reflexivity|]. split; [reflexivity|]. split; [qdecide|].
    eexists. split; [vm_compute; reflexivity|]. split; qdecide.
Qed.

(** [first_compute_bumpless] at the started default controller reading 65. *)
Lemma first_compute_bumpless_witness :
  exists out,
    snd (PID.compute PID.started_pid 65.0 None 1.0) = Ok out /\
    out == 130 # 3 /\ 43.3 <= out /\ out <= 43.4.
Proof.
  apply (first_compute_bumpless PID.started_pid 65.0 None 1.0 eq_refl eq_refl).
  - qdecide.
  - qdecide.
Defined.

(** C4 fails as stated: after the first [compute] of the started default
    controller the integral is 13, below [output_min = 30]; after
    [initialize] it is 0; and [set_auto_mode(True, 65.0)] itself stored
    [last_output = 0]. *)
Lemma integral_outside_limits :
  let after_compute := fst (PID.compute PID.started_pid 65.0 None 1.0) in
  let after_init := PID.initialize (PID.default_pid 0) in
  (PID.integral after_compute == 13 /\
   ~ PID.within (PID.output_min after_compute) (PID.output_max after_compute)
                (PID.integral after_compute)) /\
  ~ PID.within (PID.output_min after_init) (PID.output_max after_init)
               (PID.integral after_init) /\
  ~ PID.within (PID.output_min PID.started_pid) (PID.output_max PID.started_pid)
               (PID.integral PID.started_pid).
Proof.
  cbv zeta. repeat apply conj; try (intros [H _]; revert H); qdecide.
Qed.

(** [integral_updates] on the state of [test_rate_limiting]. *)
Lemma integral_updates_witness :
  PID.within (PID.output_min PID.running_pid) (PID.output_max PID.running_pid)
    (PID.integral (fst (PID.compute PID.running_pid 70.0 None 100))) /\
  PID.within 40.0 80.0 (PID.integral (PID.set_output_limits PID.running_pid 40.0 80.0)).
Proof.
  destruct (integral_updates PID.running_pid 70.0 None 100 40.0 80.0 None)
    as (H1 & H2 & _).
  split.
  - apply H1; [reflexivity | reflexivity | qdecide | qdecide | qdecide].
  - apply H2; [reflexivity | qdecide].
Defined.

(** [set_output_limits_spec] on the default controller: (80, 40) is ignored,
    (40, 80) is stored. *)
Lemma set_output_limits_spec_witness :
  PID.set_output_limits (PID.default_pid 0) 80.0 40.0 = PID.default_pid 0 /\
  PID.output_min (PID.set_output_limits (PID.default_pid 0) 40.0 80.0) = 40.0 /\
  PID.output_max (PID.set_output_limits (PID.default_pid 0) 40.0 80.0) = 80.0.
Proof.
  destruct (set_output_limits_spec (PID.default_pid 0) 80.0 40.0) as [H1 _].
  destruct (set_output_limits_spec (PID.default_pid 0) 40.0 80.0) as [_ H2].
  split.
  - apply H1. qdecide.
  - assert (H : 40.0 <= 80.0) by qdecide.
    destruct (H2 H) as (A & B & _). split; assumption.
Defined.

(** C9 fails as stated when [output_max] is below 75: with limits 30..50 the
    base response at an error of 6 is 74.75, above both its value at 15
    (which is 50) and [output_max]. *)
Lemma base_response_low_max :
  5.0 < 6 /\ 6 < 15 /\
  ~ PID._calculate_base_response PID.low_max_pid 6
    <= PID._calculate_base_response PID.low_max_pid 15 /\
  ~ PID._calculate_base_response PID.low_max_pid 6
    <= PID.output_max PID.low_max_pid.
Proof. repeat apply conj; qdecide. Qed.

(** [base_response_above_5] on the default controller, errors 6 and 15. *)
Lemma base_response_above_5_witness :
  PID._calculate_base_response (PID.default_pid 0) 6
    <= PID._calculate_base_response (PID.default_pid 0) 15 /\
  PID._calculate_base_response (PID.default_pid 0) 6
    <= PID.output_max (PID.default_pid 0).
Proof.
  assert (H : 75.0 <= PID.output_max (PID.default_pid 0)) by qdecide.
  destruct (base_response_above_5 (PID.default_pid 0) 6 15 H) as [H1 H2].
  split; [apply H1 | apply H2]; qdecide.
Defined.

(** ** Sensor readings: [get_highest_temperature] *)

Lemma max_from_in (m : num) (l : list num) : In (max_from m l) (m :: l).
Proof.
  revert m. induction l as [|x l IH]; intro m; cbn [max_from].
  - now left.
  - destruct (IH (if Qltb (num_val m) (num_val x) then x else m)) as [H|H].
    + destruct (Qltb (num_val m) (num_val x)); rewrite <- H; cbn; auto.
    + right. now right.
Qed.

Lemma max_from_upper (m : num) (l : list num) :
  forall x, In x (m :: l) -> num_val x <= num_val (max_from m l).
Proof.
  revert m. induction l as [|y l IH]; intros m x Hx; cbn [max_from].
  - destruct Hx as [<-|[]]. apply Qle_refl.
  - assert (Hm : num_val m <= num_val (if Qltb (num_val m) (num_val y) then y else m)
                 /\ num_val y <= num_val (if Qltb (num_val m) (num_val y) then y else m)).
    { qcase; split; lra. }
    destruct Hm as [Hm Hy].
    destruct Hx as [<-|[<-|Hx]].
    + eapply Qle_trans; [exact Hm|]. apply IH. now left.
    + eapply Qle_trans; [exact Hy|]. apply IH. now left.
    + apply IH. now right.
Qed.

(** The ipmitool backend: the greatest of the numeric readings, one of them,
    and 60.0 when there is none (no sensor, or none with a number). *)
Lemma tool_highest_temperature (temp_sensors : list sensor) :
  (IPMITool.valid_temps temp_sensors = [] ->
   IPMITool.get_highest_temperature temp_sensors = NFloat 60.0) /\
  (IPMITool.valid_temps temp_sensors <> [] ->
   In (IPMITool.get_highest_temperature temp_sensors)
      (IPMITool.valid_temps temp_sensors) /\
   forall x, In x (IPMITool.valid_temps temp_sensors) ->
             num_val x <= num_val (IPMITool.get_highest_temperature temp_sensors)).
Proof.
  unfold IPMITool.get_highest_temperature.
  destruct temp_sensors as [|s0 rest].
  - split; [reflexivity | intro H; now contradiction H].
  - destruct (IPMITool.valid_temps (s0 :: rest)) as [|t temps].
    + split; [reflexivity | intro H; now contradiction H].
    + split; [discriminate|]. intros _. split.
      * apply max_from_in.
      * apply max_from_upper.
Qed.

(** The pyipmi backend on readings that all carry a number: the greatest of
    them. *)
Lemma ipmi_max_gen_numeric (m : num) (rest : list sensor) (temps : list num) :
  map current_temp rest = map (fun n => Some (VNum n)) temps ->
  IPMI.max_gen (VNum m) rest = Ok (VNum (max_from m temps)).
Proof.
  revert m temps. induction rest as [|s0 rest IH]; intros m temps H.
  - destruct temps; [reflexivity | discriminate].
  - destruct temps as [|t temps]; [discriminate|].
    cbn in H. injection H as H0 H. cbn [IPMI.max_gen max_from].
    rewrite H0. cbn [IPMI.py_gt].
    destruct (Qltb (num_val m) (num_val t)); now apply IH.
Qed.

(** C5 does not hold of the pyipmi backend.  With no sensor it returns 0.0,
    not the 60.0 that the ipmitool backend returns; a reading without
    number is returned as it is, or raises: a lone string comes back, a
    missing key is a [KeyError], [None] next to a number a [TypeError]. *)
Theorem ipmi_highest_temperature_no_fallback :
  snd (IPMI.get_highest_temperature (Ok []) (ipmi_started, steady_world))
    = Ok (VNum (NFloat 0.0)) /\
  ~ 0.0 == 60.0 /\
  IPMITool.get_highest_temperature [] = NFloat 60.0 /\
  IPMI.highest_of [mkSensor "01h" "Inlet Temp" (Some (VStr "na")) "" "ok"]
    = Ok (VStr "na") /\
  IPMITool.get_highest_temperature
    [mkSensor "01h" "Inlet Temp" (Some (VStr "na")) "" "ok"] = NFloat 60.0 /\
  IPMI.highest_of [mkSensor "01h" "Inlet Temp" None "" "ok"] = Raise KeyError /\
  IPMI.highest_of [mkSensor "01h" "Inlet Temp" (Some VNone) "" "ok"; cpu_65]
    = Raise TypeError /\
  IPMITool.get_highest_temperature
    [mkSensor "01h" "Inlet Temp" (Some VNone) "" "ok"; cpu_65] = NFloat 65.0.
Proof.
  repeat apply conj; try reflexivity. qdecide.
Qed.

(** ** The monitoring loops *)

Lemma calls_of_app (a b : list event) : calls_of (a ++ b) = calls_of a ++ calls_of b.
Proof.
  induction a as [|e a IH]; [reflexivity|].
  destruct e; cbn; now rewrite IH.
Qed.

(** The clamp of the ipmitool loop lands within the limits. *)
Lemma tool_clamp_within (fan_speed : num) (lo hi : Q) :
  lo <= hi ->
  PID.within lo hi (num_val (num_max (num_min fan_speed (NFloat hi)) (NFloat lo))).
Proof.
  intro H. unfold PID.within, num_max, num_min.
  destruct (Qltb_spec (num_val (NFloat hi)) (num_val fan_speed)); cbn [num_val] in *;
    qcase; cbn [num_val]; split; lra.
Qed.

(** Under limits within 0..100 the clamped speed passes the guard of
    [set_fan_speed]. *)
Lemma tool_clamp_in_range (fan_speed : num) (lo hi : Q) :
  0 <= lo -> lo <= hi -> hi <= 100 ->
  out_of_range (num_max (num_min fan_speed (NFloat hi)) (NFloat lo)) = false.
Proof.
  intros H0 H H100. destruct (tool_clamp_within fan_speed lo hi H) as [A B].
  unfold out_of_range. apply orb_false_iff. split.
  - destruct (Qltb_spec (num_val (num_max (num_min fan_speed (NFloat hi)) (NFloat lo))) 0);
      [exfalso; lra | reflexivity].
  - destruct (Qltb_spec 100 (num_val (num_max (num_min fan_speed (NFloat hi)) (NFloat lo))));
      [exfalso; lra | reflexivity].
Qed.

(** [set_fan_speed] of the ipmitool backend: the call is recorded, what
    follows in the trace holds no further call, the controller is untouched,
    and the result is a [ValueError] exactly when the percentage is out of
    0..100. *)
Lemma tool_set_fan_speed_spec (percentage : num) (s : IPMITool.Ctl * World) :
  let r := IPMITool.set_fan_speed percentage s in
  fst (fst r) = fst s /\
  (exists evs,
     trace (snd (fst r)) = trace (snd s) ++ EvSetFanSpeed percentage :: evs /\
     calls_of evs = []) /\
  (out_of_range percentage = true -> snd r = Raise ValueError) /\
  (out_of_range percentage = false -> snd r <> Raise ValueError).
Proof.
  destruct s as [c w]. cbv zeta.
  unfold IPMITool.set_fan_speed, bind, emit, try_except. cbn [fst snd trace hw issued].
  destruct (out_of_range percentage).
  - unfold raise. cbn. repeat split; try reflexivity; try discriminate.
    exists []. now split.
  - unfold IPMITool._set_manual_mode, IPMITool._run_command, try_except, bind,
      exchange, raise, ret.
    cbn [fst snd trace hw issued].
    destruct (hw w (issued w)); cbn [fst snd trace hw issued].
    + destruct (format_x percentage) as [hex|e]; cbn [fst snd trace hw issued].
      * destruct (hw w (S (issued w))); cbn; rewrite <- ?app_assoc; cbn;
          (split; [reflexivity|]);
          (split; [eexists; split; [reflexivity | reflexivity]|]);
          split; discriminate.
      * cbn. rewrite <- ?app_assoc. cbn. split; [reflexivity|].
        split; [eexists; split; [reflexivity | reflexivity]|].
        split; discriminate.
    + cbn. rewrite <- ?app_assoc. cbn. split; [reflexivity|].
      split; [eexists; split; [reflexivity | reflexivity]|].
      split; discriminate.
Qed.

Lemma tool_set_fan_speed_calls (percentage : num) (s : IPMITool.Ctl * World) :
  calls_of (trace (snd (fst (IPMITool.set_fan_speed percentage s))))
  = calls_of (trace (snd s)) ++ [percentage].
Proof.
  destruct (tool_set_fan_speed_spec percentage s) as (_ & (evs & Ht & He) & _).
  rewrite Ht, calls_of_app. cbn. now rewrite He.
Qed.

(** The ipmitool loop hands [set_fan_speed] the truncated result of
    [compute], clamped to the limits of the controller; under limits within
    0..100 the pass cannot end in the [ValueError] of the range guard. *)
Lemma tool_loop_applies_clamped (callback : option (status -> result unit))
  (t : tick (list sensor)) (c : IPMITool.Ctl) (w : World)
  (p : PID.PIDController) (computed : Q) :
  PID.compute (IPMITool.pid c)
    (num_val (IPMITool.get_highest_temperature (tick_sensors t))) None
    (tick_clock t) = (p, Ok computed) ->
  let fan_speed :=
    num_max (num_min (NInt (py_int computed)) (NFloat (PID.output_max p)))
            (NFloat (PID.output_min p)) in
  let r := IPMITool.loop_try callback t (c, w) in
  calls_of (trace (snd (fst r))) = calls_of (trace w) ++ [fan_speed] /\
  (PID.output_min p <= PID.output_max p ->
   PID.within (PID.output_min p) (PID.output_max p) (num_val fan_speed)) /\
  (0 <= PID.output_min p -> PID.output_min p <= PID.output_max p ->
   PID.output_max p <= 100 -> snd r <> Raise ValueError).
Proof.
  intros Hc fan_speed r. subst r.
  unfold IPMITool.loop_try, bind, IPMITool.pid_compute, get.
  cbn [fst snd]. rewrite Hc. cbn [fst snd IPMITool.pid].
  fold fan_speed.
  set (s1 := (IPMITool.mkController p (IPMITool.target_temp c)
                (IPMITool.monitor_interval c), w)).
  destruct (tool_set_fan_speed_spec fan_speed s1) as (Hctl & _ & Hbad & Hgood).
  assert (Hcalls := tool_set_fan_speed_calls fan_speed s1).
  destruct (IPMITool.set_fan_speed fan_speed s1) as [s2 [u|e]] eqn:Es;
    cbn [fst snd] in *.
  - split; [|split].
    + unfold IPMITool.call_callback, emit, ret.
      destruct callback; cbn [fst snd trace]; [rewrite calls_of_app; cbn|];
        rewrite ?app_nil_r; exact Hcalls.
    + intro H. now apply tool_clamp_within.
    + intros _ _ _. unfold IPMITool.call_callback, emit, ret.
      destruct callback; discriminate.
  - split; [exact Hcalls | split].
    + intro H. now apply tool_clamp_within.
    + intros H0 H H100 Hv. injection Hv as ->.
      apply (Hgood (tool_clamp_in_range _ _ _ H0 H H100)). reflexivity.
Qed.

(** C6 does not hold of the pyipmi backend, whose loop applies
    [int(compute(...))] as it is.  With limits 70..100, target 60 and a
    reading of 65, the first pass sets the fans to 43 percent, below
    [output_min]; the clamp would give 70.  On the same input the ipmitool
    loop does clamp, to the float [70.0] of the limit, which [set_fan_speed]
    cannot format in hexadecimal: that pass ends in a [RuntimeError] after
    the manual-mode command and sets no speed. *)
Theorem loops_at_narrow_limits :
  let t_ipmi := mkTick (Ok [cpu_65]) 1 in
  let t_tool := mkTick [cpu_65] 1 in
  snd (IPMI.loop_try None t_ipmi (ipmi_narrow, steady_world)) = Ok 43%Z /\
  trace (snd (fst (IPMI.loop_try None t_ipmi (ipmi_narrow, steady_world)))) =
    [EvSetFanSpeed (NInt 43);
     EvRawCommand 0x30 0x30 [1%Z] true;
     EvRawCommand 0x30 0x31 [43%Z] true;
     EvSleep 30.0] /\
  inject_Z 43 < PID.output_min (IPMI.pid ipmi_narrow) /\
  num_max (num_min (NInt 43) (NFloat (PID.output_max (IPMI.pid ipmi_narrow))))
          (NFloat (PID.output_min (IPMI.pid ipmi_narrow))) = NFloat 70.0 /\
  snd (IPMITool.loop_try None t_tool (tool_narrow, steady_world))
    = Raise RuntimeError /\
  trace (snd (fst (IPMITool.loop_try None t_tool (tool_narrow, steady_world)))) =
    [EvSetFanSpeed (NFloat 70.0);
     EvIpmitool "raw 0x30 0x30 0x01 0x00" true].
Proof.
  cbv zeta. repeat apply conj; vm_compute; reflexivity.
Qed.

(** ** The recovery wrapper of the ipmitool loop *)

Lemma time_sleep_ok {S : Type} (secs : Q) (s : S * World) :
  0 <= secs ->
  time_sleep secs s =
  ((fst s, mkWorld (hw (snd s)) (issued (snd s)) (trace (snd s) ++ [EvSleep secs])),
   Ok tt).
Proof.
  intro H. unfold time_sleep.
  destruct (Qltb_spec secs 0); [exfalso; lra | reflexivity].
Qed.

Lemma time_sleep_negative {S : Type} (secs : Q) (s : S * World) :
  secs < 0 -> time_sleep secs s = (s, Raise ValueError).
Proof.
  intro H. unfold time_sleep.
  destruct (Qltb_spec secs 0); [reflexivity | exfalso; lra].
Qed.

Lemma backoff_nonneg (n : Z) : (0 <= n)%Z -> 0 <= inject_Z (5 + n * 3).
Proof. intro H. change 0 with (inject_Z 0). rewrite <- Zle_Qle. lia. Qed.

(** The [except] block: the counter goes up by one, the fans are forced to
    70 percent by exactly one call once the new count is 3 or more, by none
    before, and the pass ends in a sleep of [5 + 3 * count] seconds. *)
Lemma tool_loop_except_spec (consecutive_errors : Z) (s : IPMITool.Ctl * World) :
  (0 <= consecutive_errors)%Z ->
  let r := IPMITool.loop_except consecutive_errors s in
  snd r = Ok (consecutive_errors + 1)%Z /\
  exists evs,
    trace (snd (fst r)) =
      trace (snd s) ++ evs ++ [EvSleep (inject_Z (5 + (consecutive_errors + 1) * 3))] /\
    calls_of evs =
      if (3 <=? consecutive_errors + 1)%Z then [NInt 70] else [].
Proof.
  intros Hce. cbv zeta. unfold IPMITool.loop_except, IPMITool.max_consecutive_errors.
  assert (Hs := backoff_nonneg (consecutive_errors + 1) ltac:(lia)).
  destruct (3 <=? consecutive_errors + 1)%Z.
  - unfold bind, try_except, ret.
    destruct (tool_set_fan_speed_spec (NInt 70) s) as (_ & (evs & Ht & He) & _).
    destruct (IPMITool.set_fan_speed (NInt 70) s) as [s1 [u|e]];
      cbn [fst snd] in *;
      rewrite (time_sleep_ok _ _ Hs); cbn [fst snd trace];
      (split; [reflexivity|]);
      exists (EvSetFanSpeed (NInt 70) :: evs);
      (split; [rewrite Ht, <- app_assoc; reflexivity | cbn; now rewrite He]).
  - unfold bind, ret. cbn [fst snd].
    rewrite (time_sleep_ok _ _ Hs). cbn [fst snd trace].
    split; [reflexivity|]. exists []. split; reflexivity.
Qed.

(** The [except] block does not write the controller. *)
Lemma tool_loop_except_ctl (consecutive_errors : Z) (s : IPMITool.Ctl * World) :
  (0 <= consecutive_errors)%Z ->
  fst (fst (IPMITool.loop_except consecutive_errors s)) = fst s.
Proof.
  intro Hce. unfold IPMITool.loop_except, IPMITool.max_consecutive_errors.
  assert (Hs := backoff_nonneg (consecutive_errors + 1) ltac:(lia)).
  destruct (3 <=? consecutive_errors + 1)%Z.
  - unfold bind, try_except, ret.
    destruct (tool_set_fan_speed_spec (NInt 70) s) as (Hctl & _).
    destruct (IPMITool.set_fan_speed (NInt 70) s) as [s1 [u|e]];
      cbn [fst snd] in *; rewrite (time_sleep_ok _ _ Hs); exact Hctl.
  - unfold bind, ret. cbn [fst snd]. rewrite (time_sleep_ok _ _ Hs). reflexivity.
Qed.

(** One pass of the loop.  A pass whose work raises (reading, [compute],
    [set_fan_speed]) leaves the counter one higher and ends in a sleep of 5
    seconds plus 3 per consecutive error; on the way it calls
    [set_fan_speed(70)] exactly once when the new count has reached 3 (and
    on every later failure), not before, whatever that call raises.  A pass
    that completes leaves the counter at 0.  The counter is reset before the
    closing sleep, so a pass that only fails there (a negative interval)
    leaves it at 0 + 1. *)
Lemma recovery_wrapper (callback : option (status -> result unit))
  (consecutive_errors : Z) (t : tick (list sensor)) (s : IPMITool.Ctl * World) :
  (0 <= consecutive_errors)%Z ->
  let tried := IPMITool.loop_try callback t s in
  let r := IPMITool.loop_pass callback consecutive_errors t s in
  (forall e, snd tried = Raise e ->
   snd r = Ok (consecutive_errors + 1)%Z /\
   exists evs,
     trace (snd (fst r)) =
       trace (snd (fst tried)) ++ evs
       ++ [EvSleep (inject_Z (5 + (consecutive_errors + 1) * 3))] /\
     calls_of evs =
       if (3 <=? consecutive_errors + 1)%Z then [NInt 70] else []) /\
  (forall fan_speed, snd tried = Ok fan_speed ->
   0 <= IPMITool.monitor_interval (fst (fst tried)) ->
   snd r = Ok 0%Z /\
   trace (snd (fst r)) =
     trace (snd (fst tried))
     ++ [EvSleep (IPMITool.monitor_interval (fst (fst tried)))]) /\
  (forall fan_speed, snd tried = Ok fan_speed ->
   IPMITool.monitor_interval (fst (fst tried)) < 0 ->
   snd r = Ok (0 + 1)%Z).
Proof.
  intros Hce. cbv zeta. unfold IPMITool.loop_pass.
  destruct (IPMITool.loop_try callback t s) as [s1 [fan_speed|e]]; cbn [fst snd].
  - split; [intros e He; discriminate He|].
    unfold try_except, bind, get, ret. cbn [fst snd]. split.
    + intros _ _ Hi.
      rewrite (time_sleep_ok _ _ Hi). cbn [fst snd trace]. now split.
    + intros _ _ Hi. rewrite (time_sleep_negative _ _ Hi).
      apply (tool_loop_except_spec 0 s1). lia.
  - split; [|split; intros ? H; discriminate H].
    intros _ _. now apply tool_loop_except_spec.
Qed.

(** [recovery_wrapper] on the started controller with two failures behind
    it: on dead hardware the pass fails and the count reaches 3; on steady
    hardware it completes and the count is back to 0. *)
Lemma recovery_wrapper_witness :
  snd (IPMITool.loop_pass None 2 (mkTick [cpu_65] 1) (tool_started, dead_world))
    = Ok 3%Z /\
  snd (IPMITool.loop_pass None 2 (mkTick [cpu_65] 1) (tool_started, steady_world))
    = Ok 0%Z.
Proof.
  assert (H2 : (0 <= 2)%Z) by lia.
  split.
  - apply (proj1 (recovery_wrapper None 2 (mkTick [cpu_65] 1)
                    (tool_started, dead_world) H2) RuntimeError).
    vm_compute. reflexivity.
  - apply (proj1 (proj2 (recovery_wrapper None 2 (mkTick [cpu_65] 1)
                           (tool_started, steady_world) H2)) (NInt 43)).
    + vm_compute. reflexivity.
    + qdecide.
Defined.

(** A run of the loop on hardware that fails its first four exchanges: three
    passes fail, the third one adding the single [set_fan_speed(70)] of the
    run; the fourth pass succeeds and the count is 0 again. *)
Lemma recovery_run :
  let ticks := [mkTick [cpu_65] 1; mkTick [cpu_65] 9; mkTick [cpu_65] 20] in
  let r3 := IPMITool._temperature_monitor_loop None ticks
              (tool_started, recovering_world 4) in
  let r4 := IPMITool._temperature_monitor_loop None (ticks ++ [mkTick [cpu_65] 34])
              (tool_started, recovering_world 4) in
  snd r3 = Ok 3%Z /\
  calls_of (trace (snd (fst r3))) = [NInt 43; NInt 30; NInt 31; NInt 70] /\
  snd r4 = Ok 0%Z /\
  calls_of (trace (snd (fst r4))) = [NInt 43; NInt 30; NInt 31; NInt 70; NInt 33].
Proof. cbv zeta. repeat apply conj; vm_compute; reflexivity. Qed.










(** * Further properties of the code *)

(** ** pid.py: tuning, re-arming and runs of calls *)

Section PIDMore.
Import PID.

Variable s : PIDController.

(** X1.  [set_sample_time] on a controller whose sample time is not zero: a
    positive value is stored, [ki] is scaled by the ratio of new to old and
    [kd] by its inverse, so that their product is kept and a doubled sample
    time doubles [ki] and halves [kd], and each of the eleven other
    attributes keeps its value; a value that is not positive changes
    nothing. *)
Theorem set_sample_time_rescales (sample_time' : Q) :
  ~ sample_time s == 0 ->
  let r := set_sample_time s sample_time' in
  snd r = Ok tt /\
  (sample_time' <= 0 -> fst r = s) /\
  (0 < sample_time' ->
   sample_time (fst r) = sample_time' /\
   ki (fst r) == ki s * (sample_time' / sample_time s) /\
   kd (fst r) == kd s * (sample_time s / sample_time') /\
   ki (fst r) * kd (fst r) == ki s * kd s /\
   (sample_time' == 2 * sample_time s ->
    ki (fst r) == 2 * ki s /\ kd (fst r) == kd s / 2) /\
   (kp (fst r), output_min (fst r), output_max (fst r), setpoint (fst r),
    last_error (fst r), integral (fst r), last_input (fst r),
    last_output (fst r), last_time (fst r), auto_mode (fst r),
    initialized (fst r))
   = (kp s, output_min s, output_max s, setpoint s,
      last_error s, integral s, last_input s,
      last_output s, last_time s, auto_mode s, initialized s)).
Proof.
  intros Hold. cbv zeta. unfold set_sample_time.
  destruct (Qltb_spec 0 sample_time') as [Hpos|Hle].
  - destruct (Qeqb_spec (sample_time s) 0) as [H0|_]; [contradiction|].
    assert (Hr : ~ sample_time' / sample_time s == 0).
    { intro H. apply (Qmult_inj_r _ _ (sample_time s) Hold) in H.
      rewrite Qmult_0_l in H. unfold Qdiv in H.
      rewrite <- Qmult_assoc, (Qmult_comm (/ _)), Qmult_inv_r, Qmult_1_r in H
        by exact Hold.
      lra. }
    destruct (Qeqb_spec (sample_time' / sample_time s) 0) as [H0|_];
      [contradiction|].
    cbn [fst snd sample_time ki kd kp setpoint output_min output_max integral
         last_error last_input last_time
         last_output auto_mode initialized with_ki with_kd with_sample_time].
    assert (Hn : ~ sample_time' == 0) by lra.
    split; [reflexivity|]. split; [intro; exfalso; lra|]. intros _.
    split; [reflexivity|]. split; [reflexivity|].
    split; [field; repeat split; assumption|].
    split; [field; repeat split; assumption|].
    split; [|reflexivity].
    intro H2. split; rewrite H2; field; repeat split;
      first [ assumption | intro Hz; apply Hold; lra ].
  - split; [reflexivity|]. split; [reflexivity|]. intro; exfalso; lra.
Qed.

(** X2.  Changing the sample time and changing it back restores both gains. *)
Theorem set_sample_time_round_trip (sample_time' : Q) :
  0 < sample_time s -> 0 < sample_time' ->
  let s1 := fst (set_sample_time s sample_time') in
  let r := set_sample_time s1 (sample_time s) in
  snd r = Ok tt /\
  sample_time (fst r) = sample_time s /\
  ki (fst r) == ki s /\ kd (fst r) == kd s.
Proof.
  intros Hold Hnew. cbv zeta.
  assert (Ho : ~ sample_time s == 0) by lra.
  assert (Hn : ~ sample_time' == 0) by lra.
  unfold set_sample_time.
  destruct (Qltb_spec 0 sample_time') as [_|Hle]; [|exfalso; lra].
  destruct (Qeqb_spec (sample_time s) 0) as [H0|_]; [contradiction|].
  assert (Hr : ~ sample_time' / sample_time s == 0).
  { intro H. apply Hn.
    setoid_replace sample_time' with (sample_time' / sample_time s * sample_time s)
      by (field; exact Ho).
    rewrite H. ring. }
  destruct (Qeqb_spec (sample_time' / sample_time s) 0) as [H0|_];
    [contradiction|].
  cbn [fst snd sample_time ki kd with_ki with_kd with_sample_time].
  destruct (Qltb_spec 0 (sample_time s)) as [_|Hle]; [|exfalso; lra].
  destruct (Qeqb_spec sample_time' 0) as [H0|_]; [contradiction|].
  assert (Hr' : ~ sample_time s / sample_time' == 0).
  { intro H. apply Ho.
    setoid_replace (sample_time s) with (sample_time s / sample_time' * sample_time')
      by (field; exact Hn).
    rewrite H. ring. }
  destruct (Qeqb_spec (sample_time s / sample_time') 0) as [H0|_];
    [contradiction|].
  cbn [fst snd sample_time ki kd with_ki with_kd with_sample_time].
  split; [reflexivity|]. split; [reflexivity|].
  split; field; repeat split; assumption.
Qed.

(** X3.  With a positive sample time, a second [compute] at the same instant
    returns what the first returned and writes nothing, whatever the new
    reading: one result per instant. *)
Theorem compute_again_same_instant (input_val input_val' now : Q)
  (clock clock' : Q) (out : Q) :
  0 < sample_time s ->
  snd (compute s input_val (Some now) clock) = Ok out ->
  let s1 := fst (compute s input_val (Some now) clock) in
  compute s1 input_val' (Some now) clock' = (s1, Ok out).
Proof.
  intros Hst Hout. cbv zeta.
  destruct (auto_mode s) eqn:Ea.
  - destruct (initialized s) eqn:Ei.
    + destruct (Qlt_le_dec (elapsed s (Some now) clock) (sample_time s)) as [Hsoon|He].
      * rewrite (compute_too_soon s input_val (Some now) clock Ea Ei Hsoon) in *.
        cbn [fst snd] in *. injection Hout as <-.
        now apply compute_too_soon.
      * assert (H0 : ~ elapsed s (Some now) clock == 0) by lra.
        rewrite (compute_regular s input_val (Some now) clock Ea Ei He H0) in *.
        cbn [fst snd] in *. injection Hout as <-.
        apply compute_too_soon; [exact Ea | exact Ei |].
        unfold elapsed. cbn. lra.
    + rewrite (compute_first s input_val (Some now) clock Ea Ei) in *.
      cbn [fst snd] in *. injection Hout as <-.
      apply compute_too_soon; [exact Ea | reflexivity |].
      unfold elapsed. cbn. lra.
  - rewrite (compute_disabled s input_val (Some now) clock Ea) in *.
    cbn [fst snd] in *. injection Hout as <-.
    now apply compute_disabled.
Qed.

(** X4.  Enabling a disabled controller re-arms the bumpless start: the next
    [compute] returns the start value of its reading, [35 + min(e, 15)/15 *
    25] for a positive error [e] and [output_min] otherwise, whatever the
    controller had stored, its previous output included.  Enabling an
    enabled controller changes nothing. *)
Theorem set_auto_mode_rearms (current_input : option Q) (input_val : Q)
  (now : option Q) (clock : Q) :
  (auto_mode s = false ->
   let s1 := set_auto_mode s true current_input in
   initialized s1 = false /\
   last_output s1 = last_output s /\
   snd (compute s1 input_val now clock) =
     Ok (if Qltb 0 (input_val - setpoint s)
         then 35.0 + (py_min (input_val - setpoint s) 15.0 / 15.0 * 25.0)
         else output_min s)) /\
  (auto_mode s = true -> set_auto_mode s true current_input = s).
Proof.
  split; intro Ea.
  - cbv zeta.
    assert (Ha : auto_mode (set_auto_mode s true current_input) = true)
      by reflexivity.
    assert (Hi : initialized (set_auto_mode s true current_input) = false).
    { unfold set_auto_mode. rewrite Ea. destruct current_input; reflexivity. }
    split; [exact Hi|]. split.
    + unfold set_auto_mode. rewrite Ea. destruct current_input; reflexivity.
    + rewrite (compute_first _ input_val now clock Ha Hi). cbn [snd].
      unfold set_auto_mode. rewrite Ea. destruct current_input; reflexivity.
  - unfold set_auto_mode. rewrite Ea. cbn. destruct s; cbn in *. now subst.
Qed.

(** X5.  With [output_min <= 40] and [output_max >= 75] the base response is a
    monotone curve of the error over the whole line, within the limits. *)
Theorem base_response_monotone (e1 e2 : Q) :
  output_min s <= 40.0 -> 75.0 <= output_max s ->
  e1 <= e2 ->
  _calculate_base_response s e1 <= _calculate_base_response s e2 /\
  within (output_min s) (output_max s) (_calculate_base_response s e1).
Proof.
  intros Hmin Hmax H12.
  assert (Hhigh : forall e, 5.0 < e ->
            75 <= _calculate_base_response s e <= output_max s).
  { intros e He. rewrite (base_response_above s e He).
    destruct (capped_error_mono e e He) as (Hc0 & _ & Hc10); [lra|].
    set (c := py_min (e - 5.0) 10.0) in *.
    unfold Qdiv. change (/ 10.0) with (10 # 100).
    assert (Hsq : 0 <= c * (10 # 100) * (c * (10 # 100)) <= 1) by nra.
    set (q := c * (10 # 100) * (c * (10 # 100))) in *. nra. }
  assert (Hlow : forall e, e <= 5.0 ->
            output_min s <= _calculate_base_response s e <= 75).
  { intros e He. unfold _calculate_base_response.
    destruct (Qleb_spec e (-1.0)); [lra|].
    destruct (Qltb_spec e 0.0); [nra|].
    destruct (Qleb_spec e 5.0); [|exfalso; lra].
    unfold Qdiv. change (/ 5.0) with (10 # 50). lra. }
  split.
  - destruct (Qlt_le_dec 5.0 e1) as [H1|H1].
    + rewrite (base_response_above s e1 H1).
      rewrite (base_response_above s e2) by lra.
      destruct (capped_error_mono e1 e2 H1 H12) as (Hc0 & Hc12 & Hc10).
      set (c1 := py_min (e1 - 5.0) 10.0) in *.
      set (c2 := py_min (e2 - 5.0) 10.0) in *.
      unfold Qdiv. change (/ 10.0) with (10 # 100).
      assert (Hsq : c1 * (10 # 100) * (c1 * (10 # 100))
                    <= c2 * (10 # 100) * (c2 * (10 # 100))) by nra.
      set (q1 := c1 * (10 # 100) * (c1 * (10 # 100))) in *.
      set (q2 := c2 * (10 # 100) * (c2 * (10 # 100))) in *.
      nra.
    + destruct (Qlt_le_dec 5.0 e2) as [H2|H2].
      * destruct (Hlow e1 H1), (Hhigh e2 H2). lra.
      * unfold _calculate_base_response.
        destruct (Qleb_spec e1 (-1.0)); destruct (Qleb_spec e2 (-1.0));
          destruct (Qltb_spec e1 0.0); destruct (Qltb_spec e2 0.0);
          destruct (Qleb_spec e1 5.0); destruct (Qleb_spec e2 5.0);
          unfold Qdiv; change (/ 5.0) with (10 # 50); try lra; nra.
  - destruct (Qlt_le_dec 5.0 e1) as [H1|H1].
    + destruct (Hhigh e1 H1). split; lra.
    + destruct (Hlow e1 H1). split; lra.
Qed.

(** X6.  The regular update integrates: with [ki >= 0], a reading at or above the
    setpoint and an integral already within the limits, the integral after
    the call is no smaller than before. *)
Theorem integral_accumulates (input_val : Q) (now : option Q) (clock : Q) :
  auto_mode s = true -> initialized s = true ->
  0 < elapsed s now clock -> sample_time s <= elapsed s now clock ->
  0 <= ki s -> setpoint s <= input_val ->
  within (output_min s) (output_max s) (integral s) ->
  integral s <= integral (fst (compute s input_val now clock)).
Proof.
  intros Ea Ei Hpos He Hki Herr [Hlo Hhi].
  assert (H0 : ~ elapsed s now clock == 0) by lra.
  rewrite (compute_regular s input_val now clock Ea Ei He H0). cbn.
  unfold integral_update.
  set (e := elapsed s now clock) in *.
  set (error := input_val - setpoint s).
  assert (Herr' : 0 <= error) by (unfold error; lra).
  assert (Hd : 0 <= ki s * error * e
                    * (if Qltb 8.0 (Qabs error) then 0.3 else 1.0)).
  { assert (0 <= ki s * error) by nra.
    set (a := ki s * error) in *.
    assert (0 <= a * e) by nra.
    set (b := a * e) in *.
    destruct (Qltb 8.0 (Qabs error)); lra. }
  set (d := ki s * error * e * (if Qltb 8.0 (Qabs error) then 0.3 else 1.0)) in *.
  unfold py_max, py_min. qcases; lra.
Qed.

End PIDMore.

(** One call on an armed controller: a value within the limits, and an
    armed controller with the same limits afterwards. *)
Lemma compute_step_armed (s : PID.PIDController) (input_val : Q)
  (now : option Q) (clock : Q) :
  PID.armed s ->
  exists s' out,
    PID.compute s input_val now clock = (s', Ok out) /\
    PID.within (PID.output_min s) (PID.output_max s) out /\
    PID.armed s' /\
    PID.output_min s' = PID.output_min s /\
    PID.output_max s' = PID.output_max s.
Proof.
  intros Hs. pose proof Hs as (Ea & Hlim & Hst & Hlast & Hstart).
  destruct (PID.initialized s) eqn:Ei.
  - specialize (Hlast eq_refl).
    destruct (Qlt_le_dec (PID.elapsed s now clock) (PID.sample_time s))
      as [Hsoon|He].
    + rewrite (compute_too_soon s input_val now clock Ea Ei Hsoon).
      exists s, (PID.last_output s). split; [reflexivity|].
      split; [exact Hlast|]. split; [exact Hs | split; reflexivity].
    + assert (H0 : ~ PID.elapsed s now clock == 0) by lra.
      rewrite (compute_regular s input_val now clock Ea Ei He H0).
      eexists. eexists. split; [reflexivity|].
      assert (Hout : PID.within (PID.output_min s) (PID.output_max s)
                (PID.rate_limit (PID.last_output s)
                   (PID.limit_output
                      (PID.with_integral
                         (PID.integral_update s (input_val - PID.setpoint s)
                            (PID.elapsed s now clock)) s)
                      (PID.blended_output
                         (PID.with_integral
                            (PID.integral_update s (input_val - PID.setpoint s)
                               (PID.elapsed s now clock)) s)
                         input_val (input_val - PID.setpoint s)
                         (PID.elapsed s now clock)))
                   (PID.max_change_of (input_val - PID.setpoint s)
                      (PID.elapsed s now clock)))).
      { apply rate_limit_within.
        - apply max_change_of_nonneg. lra.
        - exact Hlast.
        - unfold PID.limit_output. cbn [PID.output_max PID.output_min PID.with_integral].
          now apply clamp_within. }
      split; [exact Hout|]. split; [|split; reflexivity].
      unfold PID.armed. cbn. rewrite Ea, Ei.
      repeat split; try assumption; try apply Hout; intro Hx; congruence.
  - destruct (Hstart eq_refl) as [H35 H60].
    rewrite (compute_first s input_val now clock Ea Ei).
    eexists. eexists. split; [reflexivity|].
    assert (Hout : PID.within (PID.output_min s) (PID.output_max s)
              (if Qltb 0 (input_val - PID.setpoint s)
               then 35.0 + (py_min (input_val - PID.setpoint s) 15.0 / 15.0 * 25.0)
               else PID.output_min s)).
    { destruct (Qltb_spec 0 (input_val - PID.setpoint s)) as [Hpos|_].
      - destruct (initial_output_range _ Hpos) as [A B]. split; lra.
      - split; lra. }
    split; [exact Hout|]. split; [|split; reflexivity].
    unfold PID.armed. cbn. rewrite Ea.
    repeat split; try assumption; try apply Hout; intro Hx; congruence.
Qed.

(** X7.  Every call of a series on an armed controller returns a value within
    the limits, whatever the readings and the instants: the first call, the
    calls that come too soon and the rate-limited ones alike. *)
Theorem compute_all_within_limits (s : PID.PIDController) (calls : list (Q * Q)) :
  PID.armed s ->
  PID.armed (fst (PID.compute_all s calls)) /\
  Forall (fun r => exists out,
            r = Ok out /\
            PID.within (PID.output_min s) (PID.output_max s) out)
         (snd (PID.compute_all s calls)).
Proof.
  revert s. induction calls as [|[input_val now] calls IH]; intros s Hs.
  - cbn. split; [exact Hs | constructor].
  - cbn [PID.compute_all].
    destruct (compute_step_armed s input_val (Some now) now Hs)
      as (s' & out & Hc & Hout & Hs' & Hmin & Hmax).
    rewrite Hc. destruct (IH s' Hs') as [Harmed Hall].
    destruct (PID.compute_all s' calls) as [s'' rs]. cbn [fst snd] in *.
    split; [exact Harmed|]. constructor.
    + exists out. now split.
    + rewrite Hmin, Hmax in Hall. exact Hall.
Qed.

(** The started default controller is armed, and six calls on it stay
    within 30..100. *)
Lemma compute_all_within_limits_witness :
  Forall (fun r => exists out,
            r = Ok out /\
            PID.within (PID.output_min PID.started_pid)
                       (PID.output_max PID.started_pid) out)
         (snd (PID.compute_all PID.started_pid
                 [(65.0, 1); (90.0, 1.5); (90.0, 3); (20.0, 4); (200, 40); (-50, 41)])).
Proof.
  apply (compute_all_within_limits PID.started_pid).
  unfold PID.armed. repeat split; qdecide.
Defined.

(** [set_sample_time_rescales] on the default controller: from 1 to 2
    seconds, [ki] doubles and [kd] halves. *)
Lemma set_sample_time_rescales_witness :
  PID.ki (fst (PID.set_sample_time (PID.default_pid 0) 2.0)) == 2 * 0.02 /\
  PID.kd (fst (PID.set_sample_time (PID.default_pid 0) 2.0)) == 0.01 / 2.
Proof.
  assert (H0 : ~ PID.sample_time (PID.default_pid 0) == 0) by qdecide.
  destruct (set_sample_time_rescales (PID.default_pid 0) 2.0 H0) as (_ & _ & H).
  assert (Hpos : 0 < 2.0) by qdecide.
  destruct (H Hpos) as (_ & _ & _ & _ & H2 & _).
  apply H2. qdecide.
Defined.

(** [set_sample_time_round_trip] on the default controller, through 30
    seconds and back. *)
Lemma set_sample_time_round_trip_witness :
  PID.ki (fst (PID.set_sample_time
                 (fst (PID.set_sample_time (PID.default_pid 0) 30.0))
                 (PID.sample_time (PID.default_pid 0))))
  == PID.ki (PID.default_pid 0).
Proof.
  assert (H0 : 0 < PID.sample_time (PID.default_pid 0)) by qdecide.
  assert (H1 : 0 < 30.0) by qdecide.
  apply (set_sample_time_round_trip (PID.default_pid 0) 30.0 H0 H1).
Defined.

(** [compute_again_same_instant] on the started controller: a second
    reading of 90 at the instant of the first call. *)
Lemma compute_again_same_instant_witness :
  exists out,
    PID.compute (fst (PID.compute PID.started_pid 65.0 (Some 1) 0)) 90.0 (Some 1) 7
    = (fst (PID.compute PID.started_pid 65.0 (Some 1) 0), Ok out).
Proof.
  assert (Hst : 0 < PID.sample_time PID.started_pid) by qdecide.
  eexists.
  apply (compute_again_same_instant PID.started_pid 65.0 90.0 1 0 7 _ Hst).
  vm_compute. reflexivity.
Defined.

(** [set_auto_mode_rearms] on the default controller, which is disabled. *)
Lemma set_auto_mode_rearms_witness :
  PID.initialized (PID.set_auto_mode (PID.default_pid 0) true (Some 65.0)) = false.
Proof.
  apply (proj1 (set_auto_mode_rearms (PID.default_pid 0) (Some 65.0) 65.0 None 1)).
  reflexivity.
Defined.

(** [base_response_monotone] on the default controller, from 3 degrees
    below to 20 degrees above the setpoint. *)
Lemma base_response_monotone_witness :
  PID._calculate_base_response (PID.default_pid 0) (-3)
  <= PID._calculate_base_response (PID.default_pid 0) 20.
Proof.
  apply (base_response_monotone (PID.default_pid 0) (-3) 20); qdecide.
Defined.

(** [integral_accumulates] on the state of [test_rate_limiting] with an
    integral of 40. *)
Lemma integral_accumulates_witness :
  PID.integral (PID.with_integral 40 PID.running_pid)
  <= PID.integral
       (fst (PID.compute (PID.with_integral 40 PID.running_pid) 70.0 None 100)).
Proof.
  apply (integral_accumulates (PID.with_integral 40 PID.running_pid) 70.0 None 100);
    try reflexivity; try qdecide.
  split; qdecide.
Defined.

(** ** ipmitool.py and ipmi.py: [set_fan_speed] *)

Lemma Qltb_inject_Z (a b : Z) : Qltb (inject_Z a) (inject_Z b) = (a <? b)%Z.
Proof.
  destruct (Qltb_spec (inject_Z a) (inject_Z b)) as [H|H];
    destruct (Z.ltb_spec a b) as [H'|H']; try reflexivity; exfalso.
  - rewrite <- Zlt_Qlt in H. lia.
  - rewrite <- Zle_Qle in H. lia.
Qed.

(** The range guard on an integer. *)
Lemma out_of_range_int (z : Z) :
  out_of_range (NInt z) = ((z <? 0) || (100 <? z))%Z.
Proof.
  unfold out_of_range. cbn [num_val].
  change 0 with (inject_Z 0). change 100 with (inject_Z 100).
  now rewrite !Qltb_inject_Z.
Qed.

(** What [set_fan_speed] of the ipmitool backend does with a percentage
    that passes the range guard, exchange by exchange. *)
Lemma tool_set_fan_speed_run (percentage : num) (c : IPMITool.Ctl) (w : World) :
  out_of_range percentage = false ->
  let a := hw w (issued w) in
  let b := hw w (S (issued w)) in
  let manual := EvIpmitool IPMITool.DELL_CMD_ENABLE_MANUAL_FAN a in
  IPMITool.set_fan_speed percentage (c, w) =
  match format_x percentage with
  | Ok hex =>
      let cmd := (IPMITool.DELL_CMD_SET_FAN_SPEED ++ " 0x" ++ hex)%string in
      if a then
        if b then
          ((c, mkWorld (hw w) (S (S (issued w)))
                 (trace w ++ [EvSetFanSpeed percentage; manual;
                              EvIpmitool cmd true; EvSleep 0.5])), Ok tt)
        else
          ((c, mkWorld (hw w) (S (S (issued w)))
                 (trace w ++ [EvSetFanSpeed percentage; manual;
                              EvIpmitool cmd false])), Raise RuntimeError)
      else
        ((c, mkWorld (hw w) (S (issued w))
               (trace w ++ [EvSetFanSpeed percentage; manual])),
         Raise RuntimeError)
  | Raise _ =>
      ((c, mkWorld (hw w) (S (issued w))
             (trace w ++ [EvSetFanSpeed percentage; manual])),
       Raise RuntimeError)
  end.
Proof.
  intro Hr. cbv zeta.
  unfold IPMITool.set_fan_speed, bind, emit, try_except. cbn [fst snd trace hw issued].
  rewrite Hr.
  unfold IPMITool._set_manual_mode, IPMITool._run_command, try_except, bind,
    exchange, raise, ret.
  cbn [fst snd trace hw issued].
  destruct (hw w (issued w)); cbn [fst snd trace hw issued].
  - destruct (format_x percentage) as [hex|e]; cbn [fst snd trace hw issued].
    + destruct (hw w (S (issued w))); cbn; rewrite <- ?app_assoc; reflexivity.
    + rewrite <- ?app_assoc. reflexivity.
  - destruct (format_x percentage) as [hex|e]; rewrite <- ?app_assoc; reflexivity.
Qed.

(** An integer percentage of 0..100 has a hexadecimal form, and reading it
    back gives the percentage. *)
Lemma format_x_round_trip (z : Z) :
  (0 <= z)%Z ->
  exists hex, format_x (NInt z) = Ok hex /\ HexString.Raw.to_N hex 0 = Z.to_N z.
Proof.
  intro Hz. destruct z as [|p|p]; [| |lia].
  - exists "0"%string. split; reflexivity.
  - eexists. split; [reflexivity|]. cbn [Z.to_N].
    now rewrite HexString.Raw.to_N_of_pos.
Qed.

(** X8.  [set_fan_speed(percentage)] of the ipmitool backend on an integer of
    0..100: the manual-mode command goes first; only if it is accepted does
    the speed command follow, carrying the percentage as one hexadecimal
    byte that reads back as the percentage; the call returns after a pause
    of half a second when both were accepted and raises [RuntimeError]
    otherwise.  The controller is not written. *)
Theorem tool_set_fan_speed_int (z : Z) (c : IPMITool.Ctl) (w : World) :
  (0 <= z <= 100)%Z ->
  let a := hw w (issued w) in
  let b := hw w (S (issued w)) in
  let r := IPMITool.set_fan_speed (NInt z) (c, w) in
  exists hex,
    HexString.Raw.to_N hex 0 = Z.to_N z /\
    fst (fst r) = c /\
    snd r = (if a && b then Ok tt else Raise RuntimeError) /\
    trace (snd (fst r)) =
      trace w ++
      EvSetFanSpeed (NInt z)
      :: EvIpmitool IPMITool.DELL_CMD_ENABLE_MANUAL_FAN a
      :: (if a then
            EvIpmitool (IPMITool.DELL_CMD_SET_FAN_SPEED ++ " 0x" ++ hex)%string b
            :: (if b then [EvSleep 0.5] else [])
          else []).
Proof.
  intros [Hlo Hhi]. cbv zeta.
  destruct (format_x_round_trip z Hlo) as (hex & Hf & Hback).
  exists hex. split; [exact Hback|].
  assert (Hr : out_of_range (NInt z) = false).
  { rewrite out_of_range_int. apply orb_false_iff.
    split; apply Z.ltb_ge; lia. }
  rewrite (tool_set_fan_speed_run (NInt z) c w Hr), Hf. cbv zeta.
  destruct (hw w (issued w)); [destruct (hw w (S (issued w)))|];
    cbn; repeat split; reflexivity.
Qed.

(** [tool_set_fan_speed_int] for 70 percent on steady hardware. *)
Lemma tool_set_fan_speed_int_witness :
  snd (IPMITool.set_fan_speed (NInt 70) (tool_started, steady_world)) = Ok tt.
Proof.
  assert (H : (0 <= 70 <= 100)%Z) by lia.
  destruct (tool_set_fan_speed_int 70 tool_started steady_world H)
    as (hex & _ & _ & Hr & _).
  exact Hr.
Defined.

(** X9.  A [float] percentage never sets a speed, even within 0..100: the
    ipmitool backend switches the fans to manual mode, fails to format the
    value, and raises [RuntimeError] without a speed command. *)
Theorem tool_set_fan_speed_float (q : Q) (c : IPMITool.Ctl) (w : World) :
  0 <= q -> q <= 100 ->
  let r := IPMITool.set_fan_speed (NFloat q) (c, w) in
  snd r = Raise RuntimeError /\
  fst (fst r) = c /\
  trace (snd (fst r)) =
    trace w ++ [EvSetFanSpeed (NFloat q);
                EvIpmitool IPMITool.DELL_CMD_ENABLE_MANUAL_FAN (hw w (issued w))].
Proof.
  intros Hlo Hhi. cbv zeta.
  assert (Hr : out_of_range (NFloat q) = false).
  { unfold out_of_range. cbn [num_val]. apply orb_false_iff. split.
    - destruct (Qltb_spec q 0); [exfalso; lra | reflexivity].
    - destruct (Qltb_spec 100 q); [exfalso; lra | reflexivity]. }
  rewrite (tool_set_fan_speed_run (NFloat q) c w Hr). cbn [format_x].
  repeat split; reflexivity.
Qed.

(** [tool_set_fan_speed_float] for 70.0 on steady hardware. *)
Lemma tool_set_fan_speed_float_witness :
  snd (IPMITool.set_fan_speed (NFloat 70.0) (tool_started, steady_world))
  = Raise RuntimeError.
Proof.
  apply (tool_set_fan_speed_float 70.0 tool_started steady_world); qdecide.
Defined.

(** X10.  A percentage out of 0..100 never reaches the hardware.  The ipmitool
    backend raises [ValueError] before any exchange.  The pyipmi backend
    does so too once connected; when it is not, it connects first, and the
    [ValueError] comes after a connection that succeeded. *)
Theorem set_fan_speed_out_of_range (z : Z) (w : World)
  (c : IPMITool.Ctl) (c' : IPMI.Ctl) :
  (z < 0 \/ 100 < z)%Z ->
  IPMITool.set_fan_speed (NInt z) (c, w) =
    ((c, mkWorld (hw w) (issued w) (trace w ++ [EvSetFanSpeed (NInt z)])),
     Raise ValueError) /\
  (IPMI.connected c' = true ->
   IPMI.set_fan_speed z (c', w) =
     ((c', mkWorld (hw w) (issued w) (trace w ++ [EvSetFanSpeed (NInt z)])),
      Raise ValueError)) /\
  (IPMI.connected c' = false ->
   let r := IPMI.set_fan_speed z (c', w) in
   trace (snd (fst r)) =
     trace w ++ [EvSetFanSpeed (NInt z); EvConnect (hw w (issued w))] /\
   IPMI.connected (fst (fst r)) = hw w (issued w) /\
   snd r = (if hw w (issued w) then Raise ValueError else Raise RuntimeError)).
Proof.
  intro Hz.
  assert (Hr : out_of_range (NInt z) = true).
  { rewrite out_of_range_int. apply orb_true_iff.
    destruct Hz as [Hz|Hz]; [left | right]; apply Z.ltb_lt; lia. }
  split; [|split].
  - unfold IPMITool.set_fan_speed, bind, emit, raise. cbn [fst snd trace hw issued].
    now rewrite Hr.
  - intro Hc. unfold IPMI.set_fan_speed, IPMI.ensure_connected, bind, emit, get,
      raise, ret.
    cbn [fst snd trace hw issued]. rewrite Hc. cbn [negb fst snd].
    now rewrite Hr.
  - intro Hc. cbv zeta.
    unfold IPMI.set_fan_speed, IPMI.ensure_connected, IPMI.connect,
      IPMI.set_connected, bind, emit, get, put, exchange, raise, ret.
    cbn [fst snd trace hw issued]. rewrite Hc. cbn [negb fst snd trace hw issued].
    destruct (hw w (issued w)); cbn [fst snd trace hw issued IPMI.connected];
      rewrite ?Hr; cbn; rewrite <- ?app_assoc; repeat split; reflexivity.
Qed.

(** [set_fan_speed_out_of_range] for 101 percent. *)
Lemma set_fan_speed_out_of_range_witness :
  snd (IPMITool.set_fan_speed (NInt 101) (tool_started, steady_world))
  = Raise ValueError.
Proof.
  assert (H : (101 < 0 \/ 100 < 101)%Z) by lia.
  destruct (set_fan_speed_out_of_range 101 steady_world tool_started ipmi_started H)
    as [H1 _].
  rewrite H1. reflexivity.
Defined.

(** ** The monitoring loops as a whole *)

(** [compute] never writes the limits. *)
Lemma compute_keeps_limits (s : PID.PIDController) (input_val : Q)
  (now : option Q) (clock : Q) :
  PID.output_min (fst (PID.compute s input_val now clock)) = PID.output_min s /\
  PID.output_max (fst (PID.compute s input_val now clock)) = PID.output_max s.
Proof.
  unfold PID.compute.
  destruct (PID.auto_mode s); cbn [negb]; [|split; reflexivity].
  destruct (Qltb _ (PID.sample_time s) && PID.initialized s); [split; reflexivity|].
  destruct (PID.initialized s); cbn [negb].
  - destruct (Qeq_bool _ 0); split; reflexivity.
  - destruct (Qltb 0 _); split; reflexivity.
Qed.

(** The [try] block of a pass of the ipmitool loop: the limits and the
    interval are kept, and at most one [set_fan_speed] is called, with an
    argument within the limits. *)
Lemma tool_loop_try_effect (callback : option (status -> result unit))
  (t : tick (list sensor)) (c : IPMITool.Ctl) (w : World) :
  let r := IPMITool.loop_try callback t (c, w) in
  PID.output_min (IPMITool.pid (fst (fst r))) = PID.output_min (IPMITool.pid c) /\
  PID.output_max (IPMITool.pid (fst (fst r))) = PID.output_max (IPMITool.pid c) /\
  IPMITool.monitor_interval (fst (fst r)) = IPMITool.monitor_interval c /\
  exists calls,
    calls_of (trace (snd (fst r))) = calls_of (trace w) ++ calls /\
    (PID.output_min (IPMITool.pid c) <= PID.output_max (IPMITool.pid c) ->
     Forall (fun p => PID.within (PID.output_min (IPMITool.pid c))
                                 (PID.output_max (IPMITool.pid c)) (num_val p))
            calls).
Proof.
  cbv zeta. unfold IPMITool.loop_try, bind, IPMITool.pid_compute, get.
  cbn [fst snd].
  destruct (compute_keeps_limits (IPMITool.pid c)
              (num_val (IPMITool.get_highest_temperature (tick_sensors t)))
              None (tick_clock t)) as [Hmin Hmax].
  destruct (PID.compute (IPMITool.pid c)
              (num_val (IPMITool.get_highest_temperature (tick_sensors t)))
              None (tick_clock t)) as [p [computed|e]]; cbn [fst snd] in *.
  - cbn [IPMITool.pid]. rewrite Hmin, Hmax.
    set (fan_speed :=
           num_max (num_min (NInt (py_int computed))
                            (NFloat (PID.output_max (IPMITool.pid c))))
                   (NFloat (PID.output_min (IPMITool.pid c)))).
    set (s1 := (IPMITool.mkController p (IPMITool.target_temp c)
                  (IPMITool.monitor_interval c), w)).
    destruct (tool_set_fan_speed_spec fan_speed s1) as (Hctl & _ & _ & _).
    assert (Hcalls := tool_set_fan_speed_calls fan_speed s1).
    assert (Hb : PID.output_min (IPMITool.pid c) <= PID.output_max (IPMITool.pid c) ->
                 Forall (fun p0 => PID.within (PID.output_min (IPMITool.pid c))
                                     (PID.output_max (IPMITool.pid c)) (num_val p0))
                        [fan_speed]).
    { intro H. constructor; [now apply tool_clamp_within | constructor]. }
    destruct (IPMITool.set_fan_speed fan_speed s1) as [s2 [u|e]];
      cbn [fst snd] in *.
    + unfold IPMITool.call_callback, emit, ret.
      destruct callback; cbn [fst snd trace]; rewrite Hctl; cbn [fst IPMITool.pid
        IPMITool.monitor_interval];
        (split; [exact Hmin|]); (split; [exact Hmax|]); (split; [reflexivity|]);
        exists [fan_speed]; (split; [|exact Hb]).
      * rewrite calls_of_app. cbn. now rewrite app_nil_r.
      * exact Hcalls.
    + rewrite Hctl. cbn [fst IPMITool.pid IPMITool.monitor_interval].
      split; [exact Hmin|]. split; [exact Hmax|]. split; [reflexivity|].
      exists [fan_speed]. split; [exact Hcalls | exact Hb].
  - split; [exact Hmin|]. split; [exact Hmax|]. split; [reflexivity|].
    exists []. split; [now rewrite app_nil_r | intros _; constructor].
Qed.

(** One pass of the ipmitool loop, whatever happens in it: it returns a
    counter between 0 and one more than before, keeps limits and interval,
    and every [set_fan_speed] it calls has an argument within the limits or
    is the safety call with 70. *)
Lemma tool_loop_pass_effect (callback : option (status -> result unit))
  (consecutive_errors : Z) (t : tick (list sensor))
  (c : IPMITool.Ctl) (w : World) :
  (0 <= consecutive_errors)%Z ->
  let r := IPMITool.loop_pass callback consecutive_errors t (c, w) in
  (exists n, snd r = Ok n /\ (0 <= n <= consecutive_errors + 1)%Z) /\
  PID.output_min (IPMITool.pid (fst (fst r))) = PID.output_min (IPMITool.pid c) /\
  PID.output_max (IPMITool.pid (fst (fst r))) = PID.output_max (IPMITool.pid c) /\
  IPMITool.monitor_interval (fst (fst r)) = IPMITool.monitor_interval c /\
  exists calls,
    calls_of (trace (snd (fst r))) = calls_of (trace w) ++ calls /\
    (PID.output_min (IPMITool.pid c) <= PID.output_max (IPMITool.pid c) ->
     Forall (fun p => PID.within (PID.output_min (IPMITool.pid c))
                                 (PID.output_max (IPMITool.pid c)) (num_val p)
                      \/ p = NInt 70)
            calls).
Proof.
  intro Hce. cbv zeta.
  destruct (tool_loop_try_effect callback t c w)
    as (Hmin & Hmax & Hint & calls & Hcalls & Hb).
  unfold IPMITool.loop_pass.
  destruct (IPMITool.loop_try callback t (c, w)) as [s1 [fan_speed|e]];
    cbn [fst snd] in *.
  - unfold try_except, bind, get, ret. cbn [fst snd].
    destruct (Qlt_le_dec (IPMITool.monitor_interval (fst s1)) 0) as [Hneg|Hpos].
    + rewrite (time_sleep_negative _ _ Hneg).
      destruct (tool_loop_except_spec 0 s1 ltac:(lia)) as (Hn & evs & Ht & He).
      assert (Hc := tool_loop_except_ctl 0 s1 ltac:(lia)).
      split; [exists (0 + 1)%Z; split; [exact Hn | lia]|].
      rewrite Hc. split; [exact Hmin|]. split; [exact Hmax|]. split; [exact Hint|].
      exists calls. split.
      * rewrite Ht, !calls_of_app, He, Hcalls. cbn. now rewrite !app_nil_r.
      * intro H. eapply Forall_impl; [|exact (Hb H)]. intros a Ha. now left.
    + rewrite (time_sleep_ok _ _ Hpos). cbn [fst snd trace].
      split; [exists 0%Z; split; [reflexivity | lia]|].
      split; [exact Hmin|]. split; [exact Hmax|]. split; [exact Hint|].
      exists calls. split.
      * rewrite calls_of_app. cbn [calls_of]. rewrite app_nil_r. exact Hcalls.
      * intro H. eapply Forall_impl; [|exact (Hb H)]. intros a Ha. now left.
  - destruct (tool_loop_except_spec consecutive_errors s1 Hce)
      as (Hn & evs & Ht & He).
    assert (Hc := tool_loop_except_ctl consecutive_errors s1 Hce).
    split; [exists (consecutive_errors + 1)%Z; split; [exact Hn | lia]|].
    rewrite Hc. split; [exact Hmin|]. split; [exact Hmax|]. split; [exact Hint|].
    exists (calls ++ if (3 <=? consecutive_errors + 1)%Z then [NInt 70] else []).
    split.
    + rewrite Ht, !calls_of_app, He, Hcalls. cbn. now rewrite app_nil_r, app_assoc.
    + intro H. apply Forall_app. split.
      * eapply Forall_impl; [|exact (Hb H)]. intros a Ha. now left.
      * destruct (3 <=? consecutive_errors + 1)%Z;
          [constructor; [now right | constructor] | constructor].
Qed.

(** The ipmitool loop from any counter, over any ticks. *)
Lemma tool_loop_from_effect (callback : option (status -> result unit))
  (ticks : list (tick (list sensor))) :
  forall (consecutive_errors : Z) (c : IPMITool.Ctl) (w : World),
  (0 <= consecutive_errors)%Z ->
  let r := IPMITool.loop_from callback consecutive_errors ticks (c, w) in
  (exists n, snd r = Ok n /\
             (0 <= n <= consecutive_errors + Z.of_nat (List.length ticks))%Z) /\
  exists calls,
    calls_of (trace (snd (fst r))) = calls_of (trace w) ++ calls /\
    (PID.output_min (IPMITool.pid c) <= PID.output_max (IPMITool.pid c) ->
     Forall (fun p => PID.within (PID.output_min (IPMITool.pid c))
                                 (PID.output_max (IPMITool.pid c)) (num_val p)
                      \/ p = NInt 70)
            calls).
Proof.
  induction ticks as [|t ticks IH]; intros ce c w Hce; cbv zeta.
  - cbn. split; [exists ce; split; [reflexivity | lia]|].
    exists []. split; [now rewrite app_nil_r | intros _; constructor].
  - cbn [IPMITool.loop_from]. unfold bind.
    destruct (tool_loop_pass_effect callback ce t c w Hce)
      as ((n & Hn & Hrange) & Hmin & Hmax & _ & calls & Hcalls & Hb).
    destruct (IPMITool.loop_pass callback ce t (c, w)) as [[c1 w1] r1];
      cbn [fst snd] in *. subst r1.
    destruct (IH n c1 w1 ltac:(lia)) as ((m & Hm & Hmr) & calls' & Hcalls' & Hb').
    cbv zeta in *. rewrite Hmin, Hmax in Hb'.
    split.
    + exists m. split; [exact Hm|]. cbn [List.length]. lia.
    + exists (calls ++ calls'). split.
      * rewrite Hcalls', Hcalls. now rewrite app_assoc.
      * intro H. apply Forall_app. split; [exact (Hb H) | exact (Hb' H)].
Qed.

(** X11.  Neither monitoring loop ever raises: whatever the sensors, the hardware
    and the callback do, [_temperature_monitor_loop] runs all its passes
    and returns.  In the ipmitool loop the error counter ends between 0 and
    the number of passes. *)
Theorem monitor_loops_never_raise (callback : option (status -> result unit))
  (ticks : list (tick (list sensor)))
  (ticks' : list (tick (result (list sensor))))
  (s : IPMITool.Ctl * World) (s' : IPMI.Ctl * World) :
  (exists n, snd (IPMITool._temperature_monitor_loop callback ticks s) = Ok n /\
             (0 <= n <= Z.of_nat (List.length ticks))%Z) /\
  snd (IPMI._temperature_monitor_loop callback ticks' s') = Ok tt.
Proof.
  split.
  - destruct s as [c w]. unfold IPMITool._temperature_monitor_loop.
    destruct (tool_loop_from_effect callback ticks 0 c w ltac:(lia))
      as ((n & Hn & Hr) & _).
    exists n. split; [exact Hn | lia].
  - revert s'. induction ticks' as [|t ticks' IH]; intro s'; [reflexivity|].
    cbn [IPMI._temperature_monitor_loop]. unfold bind.
    assert (Hp : snd (IPMI.loop_pass callback t s') = Ok tt).
    { unfold IPMI.loop_pass, try_except, bind, ret.
      destruct (IPMI.loop_try callback t s') as [s1 [z|e]]; [reflexivity|].
      rewrite time_sleep_ok by lra. reflexivity. }
    destruct (IPMI.loop_pass callback t s') as [s1 r1]. cbn [snd] in Hp.
    subst r1. apply IH.
Qed.

(** X12.  Every [set_fan_speed] that the ipmitool loop calls in a run, regular or
    safety, has an argument within the limits of the controller or equal to
    70, provided [output_min <= output_max]. *)
Theorem tool_loop_calls_bounded (callback : option (status -> result unit))
  (ticks : list (tick (list sensor))) (c : IPMITool.Ctl) (w : World) :
  PID.output_min (IPMITool.pid c) <= PID.output_max (IPMITool.pid c) ->
  exists calls,
    calls_of (trace (snd (fst (IPMITool._temperature_monitor_loop callback ticks (c, w)))))
    = calls_of (trace w) ++ calls /\
    Forall (fun p => PID.within (PID.output_min (IPMITool.pid c))
                                (PID.output_max (IPMITool.pid c)) (num_val p)
                     \/ p = NInt 70)
           calls.
Proof.
  intro H. unfold IPMITool._temperature_monitor_loop.
  destruct (tool_loop_from_effect callback ticks 0 c w ltac:(lia))
    as (_ & calls & Hcalls & Hb).
  exists calls. split; [exact Hcalls | exact (Hb H)].
Qed.

(** [tool_loop_calls_bounded] on the run of three failures and a recovery. *)
Lemma tool_loop_calls_bounded_witness :
  exists calls,
    calls_of (trace (snd (fst (IPMITool._temperature_monitor_loop None
      [mkTick [cpu_65] 1; mkTick [cpu_65] 9; mkTick [cpu_65] 20; mkTick [cpu_65] 34]
      (tool_started, recovering_world 4)))))
    = calls_of (trace (recovering_world 4)) ++ calls /\
    Forall (fun p => PID.within (PID.output_min (IPMITool.pid tool_started))
                                (PID.output_max (IPMITool.pid tool_started))
                                (num_val p)
                     \/ p = NInt 70)
           calls.
Proof.
  apply (tool_loop_calls_bounded None _ tool_started (recovering_world 4)).
  qdecide.
Defined.

(** X13.  When the truncated result of [compute] falls outside the limits, the
    clamp of the ipmitool loop returns the limit itself, a [float]; under
    limits within 0..100 the pass then switches to manual mode, sets no
    speed and ends in [RuntimeError]. *)
Theorem tool_loop_clamp_fails (callback : option (status -> result unit))
  (t : tick (list sensor)) (c : IPMITool.Ctl) (w : World)
  (p : PID.PIDController) (computed : Q) :
  PID.compute (IPMITool.pid c)
    (num_val (IPMITool.get_highest_temperature (tick_sensors t))) None
    (tick_clock t) = (p, Ok computed) ->
  0 <= PID.output_min p -> PID.output_min p <= PID.output_max p ->
  PID.output_max p <= 100 ->
  inject_Z (py_int computed) < PID.output_min p \/
  PID.output_max p < inject_Z (py_int computed) ->
  let r := IPMITool.loop_try callback t (c, w) in
  let limit :=
    if Qltb (PID.output_max p) (inject_Z (py_int computed))
    then PID.output_max p else PID.output_min p in
  snd r = Raise RuntimeError /\
  trace (snd (fst r)) =
    trace w ++ [EvSetFanSpeed (NFloat limit);
                EvIpmitool IPMITool.DELL_CMD_ENABLE_MANUAL_FAN (hw w (issued w))].
Proof.
  intros Hc H0 Hlim H100 Hout. cbv zeta.
  unfold IPMITool.loop_try, bind, IPMITool.pid_compute, get.
  cbn [fst snd]. rewrite Hc. cbn [fst snd IPMITool.pid].
  assert (Hclamp :
    num_max (num_min (NInt (py_int computed)) (NFloat (PID.output_max p)))
            (NFloat (PID.output_min p))
    = NFloat (if Qltb (PID.output_max p) (inject_Z (py_int computed))
              then PID.output_max p else PID.output_min p)).
  { unfold num_max, num_min. cbn [num_val].
    destruct (Qltb_spec (PID.output_max p) (inject_Z (py_int computed))) as [Hhi|Hhi];
      cbn [num_val].
    - destruct (Qltb_spec (PID.output_max p) (PID.output_min p));
        [exfalso; lra | reflexivity].
    - destruct (Qltb_spec (inject_Z (py_int computed)) (PID.output_min p));
        [reflexivity | exfalso; lra]. }
  rewrite Hclamp.
  set (limit := if Qltb (PID.output_max p) (inject_Z (py_int computed))
                then PID.output_max p else PID.output_min p).
  assert (Hl : 0 <= limit /\ limit <= 100).
  { unfold limit. destruct (Qltb _ _); split; lra. }
  assert (Hr : out_of_range (NFloat limit) = false).
  { unfold out_of_range. cbn [num_val]. apply orb_false_iff. split.
    - destruct (Qltb_spec limit 0); [exfalso; lra | reflexivity].
    - destruct (Qltb_spec 100 limit); [exfalso; lra | reflexivity]. }
  rewrite (tool_set_fan_speed_run (NFloat limit) _ w Hr). cbn [format_x fst snd trace].
  split; reflexivity.
Qed.

(** [tool_loop_clamp_fails] on the controller with limits 70..100, whose
    first result is 130/3. *)
Lemma tool_loop_clamp_fails_witness :
  snd (IPMITool.loop_try None (mkTick [cpu_65] 1) (tool_narrow, steady_world))
  = Raise RuntimeError.
Proof.
  eapply (tool_loop_clamp_fails None (mkTick [cpu_65] 1) tool_narrow steady_world).
  - vm_compute. reflexivity.
  - qdecide.
  - qdecide.
  - qdecide.
  - left. qdecide.
Defined.

(** ** ipmitool.py: connection test, start and stop *)

Lemma string_length_zero (x : string) :
  (String.length x =? 0)%nat = true <-> x = ""%string.
Proof.
  destruct x; cbn; split; intro H; try reflexivity; discriminate.
Qed.

(** The probes of [test_connection] one after the other: the first that
    runs and prints something ends the search with [connected] set; when
    none does, every probe was tried and the search raises. *)
Lemma try_commands_run (reply : string -> string) (commands : list string) :
  forall (ss : IPMITool.Session) (w : World),
  let r := IPMITool.try_commands reply commands (ss, w) in
  let answers k :=
    hw w (issued w + k) = true /\ reply (nth k commands ""%string) <> ""%string in
  IPMITool.ctl (fst (fst r)) = IPMITool.ctl ss /\
  IPMITool.monitoring (fst (fst r)) = IPMITool.monitoring ss /\
  hw (snd (fst r)) = hw w /\
  (exists evs, trace (snd (fst r)) = trace w ++ evs) /\
  ((exists k, (k < List.length commands)%nat /\ answers k /\
              (forall j, (j < k)%nat -> ~ answers j) /\
              snd r = Ok true /\
              IPMITool.connected (fst (fst r)) = true /\
              issued (snd (fst r)) = (issued w + S k)%nat) \/
   ((forall j, (j < List.length commands)%nat -> ~ answers j) /\
    snd r = Raise RuntimeError /\
    IPMITool.connected (fst (fst r)) = IPMITool.connected ss /\
    issued (snd (fst r)) = (issued w + List.length commands)%nat)).
Proof.
  induction commands as [|cmd commands IH]; intros ss w; cbv zeta.
  - cbn. repeat split; try reflexivity.
    + exists []. now rewrite app_nil_r.
    + right. repeat split; try reflexivity; lia.
  - cbn [IPMITool.try_commands].
    unfold IPMITool.lift, IPMITool._run_command, bind, exchange, raise, ret.
    cbn [fst snd trace hw issued IPMITool.ctl IPMITool.monitoring IPMITool.connected].
    set (w1 := mkWorld (hw w) (S (issued w))
                 (trace w ++ [EvIpmitool cmd (hw w (issued w))])).
    assert (Hshift : forall k, (issued w1 + k = issued w + S k)%nat)
      by (intro k; cbn; lia).
    assert (Hnext : forall ss1,
      IPMITool.ctl ss1 = IPMITool.ctl ss ->
      IPMITool.monitoring ss1 = IPMITool.monitoring ss ->
      IPMITool.connected ss1 = IPMITool.connected ss ->
      (hw w (issued w) = true /\ reply cmd <> ""%string -> False) ->
      let r := IPMITool.try_commands reply commands (ss1, w1) in
      IPMITool.ctl (fst (fst r)) = IPMITool.ctl ss /\
      IPMITool.monitoring (fst (fst r)) = IPMITool.monitoring ss /\
      hw (snd (fst r)) = hw w /\
      (exists evs, trace (snd (fst r)) = trace w ++ evs) /\
      ((exists k, (k < List.length (cmd :: commands))%nat /\
          (hw w (issued w + k) = true /\
           reply (nth k (cmd :: commands) ""%string) <> ""%string) /\
          (forall j, (j < k)%nat ->
             ~ (hw w (issued w + j) = true /\
                reply (nth j (cmd :: commands) ""%string) <> ""%string)) /\
          snd r = Ok true /\
          IPMITool.connected (fst (fst r)) = true /\
          issued (snd (fst r)) = (issued w + S k)%nat) \/
       ((forall j, (j < List.length (cmd :: commands))%nat ->
           ~ (hw w (issued w + j) = true /\
              reply (nth j (cmd :: commands) ""%string) <> ""%string)) /\
        snd r = Raise RuntimeError /\
        IPMITool.connected (fst (fst r)) = IPMITool.connected ss /\
        issued (snd (fst r)) = (issued w + List.length (cmd :: commands))%nat))).
    { intros ss1 Hc Hm Hk Hno. cbv zeta.
      destruct (IH ss1 w1) as (Hc' & Hm' & Hhw & (evs & Hevs) & Hcase).
      cbv zeta in *.
      split; [congruence|]. split; [congruence|]. split; [exact Hhw|].
      split.
      { exists ([EvIpmitool cmd (hw w (issued w))] ++ evs).
        rewrite Hevs. unfold w1. cbn [trace]. now rewrite <- app_assoc. }
      destruct Hcase as [(k & Hlt & Hans & Hfirst & Hr & Hcon & Hiss)
                        |(Hnone & Hr & Hcon & Hiss)].
      - left. exists (S k). cbn [List.length nth].
        rewrite Hshift in Hans. split; [lia|]. split; [exact Hans|].
        split.
        + intros [|j] Hj.
          * rewrite Nat.add_0_r. exact Hno.
          * specialize (Hfirst j ltac:(lia)). rewrite Hshift in Hfirst. exact Hfirst.
        + split; [exact Hr|]. split; [exact Hcon|]. rewrite Hiss. cbn. lia.
      - right. cbn [List.length]. split.
        + intros [|j] Hj.
          * rewrite Nat.add_0_r. exact Hno.
          * specialize (Hnone j ltac:(lia)). rewrite Hshift in Hnone. exact Hnone.
        + split; [exact Hr|]. split; [congruence|]. rewrite Hiss. cbn. lia. }
    destruct (hw w (issued w)) eqn:Ehw; cbn [fst snd].
    + destruct (String.length (reply cmd) =? 0)%nat eqn:El.
      * apply string_length_zero in El.
        apply Hnext; try reflexivity. intros [_ H]. contradiction.
      * unfold IPMITool.set_connected, bind, ret.
        cbn [fst snd IPMITool.ctl IPMITool.monitoring IPMITool.connected
             hw issued trace].
        repeat split; try reflexivity.
        -- eexists. reflexivity.
        -- left. exists 0%nat. cbn [List.length nth]. rewrite Nat.add_0_r.
           split; [lia|]. split.
           ++ split; [exact Ehw|]. intro H.
              apply string_length_zero in H. congruence.
           ++ split; [intros j Hj; lia|].
              repeat split; try reflexivity. unfold w1. cbn. lia.
    + apply Hnext; try reflexivity. intros [H _]. discriminate H.
Qed.

(** X14.  [test_connection]: it returns [True], with [connected] set, exactly when
    one of its four probes runs and prints something; it stops at the first
    one that does; when none does it has tried all four, clears
    [connected] and raises [RuntimeError].  It never returns [False] and
    writes nothing else. *)
Theorem test_connection_spec (reply : string -> string)
  (ss : IPMITool.Session) (w : World) :
  let r := IPMITool.test_connection reply (ss, w) in
  let answers k :=
    hw w (issued w + k) = true /\
    reply (nth k IPMITool.probe_commands ""%string) <> ""%string in
  IPMITool.ctl (fst (fst r)) = IPMITool.ctl ss /\
  IPMITool.monitoring (fst (fst r)) = IPMITool.monitoring ss /\
  ((exists k, (k < 4)%nat /\ answers k /\
              (forall j, (j < k)%nat -> ~ answers j) /\
              snd r = Ok true /\
              IPMITool.connected (fst (fst r)) = true /\
              issued (snd (fst r)) = (issued w + S k)%nat) \/
   ((forall j, (j < 4)%nat -> ~ answers j) /\
    snd r = Raise RuntimeError /\
    IPMITool.connected (fst (fst r)) = false /\
    issued (snd (fst r)) = (issued w + 4)%nat)).
Proof.
  cbv zeta. unfold IPMITool.test_connection, try_except.
  destruct (try_commands_run reply IPMITool.probe_commands ss w)
    as (Hc & Hm & _ & _ & Hcase).
  cbv zeta in Hcase.
  destruct (IPMITool.try_commands reply IPMITool.probe_commands (ss, w))
    as [[ss1 w1] [b|e]]; cbn [fst snd] in *.
  - split; [exact Hc|]. split; [exact Hm|].
    destruct Hcase as [(k & Hlt & Hans & Hfirst & Hr & Hcon & Hiss)
                      |(_ & Hr & _)]; [|discriminate Hr].
    left. exists k. repeat split; try assumption; apply Hans.
  - unfold IPMITool.set_connected, bind, raise.
    cbn [fst snd IPMITool.ctl IPMITool.monitoring IPMITool.connected].
    split; [exact Hc|]. split; [exact Hm|].
    destruct Hcase as [(k & _ & _ & _ & Hr & _)
                      |(Hnone & _ & _ & Hiss)]; [discriminate Hr|].
    right. repeat split; try assumption; try reflexivity.
Qed.

(** X16.  [stop_temperature_monitoring] of the ipmitool backend.  When
    monitoring is off it does nothing at all.  When it is on and the call
    comes from the monitor thread itself, which is alive, the flag is
    cleared and the join raises [RuntimeError]: the PID stays as it was and
    nothing is sent.  In every other case the call does not raise: it
    clears the flag, disables the PID, and asks once for automatic fan
    control, swallowing a refusal; a second stop then does nothing. *)
Theorem tool_stop_spec (monitor_thread : option thread)
  (ss : IPMITool.Session) (w : World) :
  let r := IPMITool.stop_temperature_monitoring monitor_thread (ss, w) in
  (IPMITool.monitoring ss = false -> r = ((ss, w), Ok tt)) /\
  (IPMITool.monitoring ss = true ->
   monitor_thread = Some (Alive true) ->
   r = ((IPMITool.mkSession (IPMITool.ctl ss) false (IPMITool.connected ss), w),
        Raise RuntimeError)) /\
  (IPMITool.monitoring ss = true ->
   monitor_thread <> Some (Alive true) ->
   snd r = Ok tt /\
   IPMITool.monitoring (fst (fst r)) = false /\
   PID.auto_mode (IPMITool.pid (IPMITool.ctl (fst (fst r)))) = false /\
   trace (snd (fst r)) =
     trace w ++ [EvIpmitool IPMITool.DELL_CMD_ENABLE_AUTO_FAN (hw w (issued w))] /\
   forall again,
     IPMITool.stop_temperature_monitoring again (fst r) = (fst r, Ok tt)).
Proof.
  destruct ss as [c m k], w as [h n tr]. destruct m.
  - cbv zeta. split; [discriminate|]. split.
    + intros _ ->. reflexivity.
    + intros _ Hth.
      destruct monitor_thread as [[|[|]]|]; [| now contradiction Hth | |];
        cbv - [PID.set_auto_mode PID.auto_mode app]; destruct (h n);
        repeat split; intros; reflexivity.
  - cbv - [app]. split; [reflexivity|]. split; discriminate.
Qed.

(** [tool_stop_spec] on a monitoring controller whose hardware is dead,
    stopped from the main thread while the monitor thread runs, and
    stopped from the monitor thread. *)
Lemma tool_stop_spec_witness :
  snd (IPMITool.stop_temperature_monitoring (Some (Alive false))
         (IPMITool.mkSession tool_started true true, dead_world)) = Ok tt /\
  snd (IPMITool.stop_temperature_monitoring (Some (Alive true))
         (IPMITool.mkSession tool_started true true, dead_world))
  = Raise RuntimeError.
Proof.
  split.
  - apply (tool_stop_spec (Some (Alive false))
             (IPMITool.mkSession tool_started true true) dead_world).
    + reflexivity.
    + discriminate.
  - rewrite (proj1 (proj2 (tool_stop_spec (Some (Alive true))
               (IPMITool.mkSession tool_started true true) dead_world))
               eq_refl eq_refl).
    reflexivity.
Defined.

(** X17.  [stop_temperature_monitoring] of the pyipmi backend.  When
    monitoring is off it does nothing at all.  When it is on and the call
    comes from the monitor thread itself, which is alive, the flag is
    cleared and the join raises [RuntimeError]: the PID stays as it was and
    nothing is sent.  In every other case it clears the flag and disables
    the PID, then sends the restore command only when connected, and its
    outcome is that of [raw_command], untouched: when the command fails,
    the caller gets the exception that [raw_command] raised. *)
Theorem ipmi_stop_spec (monitor_thread : option thread)
  (ss : IPMI.Session) (w : World) :
  let r := IPMI.stop_temperature_monitoring monitor_thread (ss, w) in
  (IPMI.monitoring ss = false -> r = ((ss, w), Ok tt)) /\
  (IPMI.monitoring ss = true ->
   monitor_thread = Some (Alive true) ->
   r = ((IPMI.mkSession (IPMI.ctl ss) false, w), Raise RuntimeError)) /\
  (IPMI.monitoring ss = true ->
   monitor_thread <> Some (Alive true) ->
   IPMI.monitoring (fst (fst r)) = false /\
   PID.auto_mode (IPMI.pid (IPMI.ctl (fst (fst r)))) = false /\
   (IPMI.connected (IPMI.ctl ss) = false ->
    snd r = Ok tt /\ snd (fst r) = w) /\
   (IPMI.connected (IPMI.ctl ss) = true ->
    trace (snd (fst r)) =
      trace w ++ [EvRawCommand IPMI.IPMI_DELL_OEM_NETFN
                    IPMI.IPMI_DELL_OEM_SET_AUTO_FAN_CMD [1%Z] (hw w (issued w))] /\
    snd r = snd (IPMI.raw_command IPMI.IPMI_DELL_OEM_NETFN
                   IPMI.IPMI_DELL_OEM_SET_AUTO_FAN_CMD [1%Z]
                   (IPMI.ctl (fst (fst r)), w)) /\
    (hw w (issued w) = true -> snd r = Ok tt) /\
    (hw w (issued w) = false -> exists e, snd r = Raise e))).
Proof.
  destruct ss as [[p tt mi k] m], w as [h n tr]. destruct m.
  - cbv zeta. split; [discriminate|]. split.
    + intros _ ->. reflexivity.
    + intros _ Hth.
      destruct monitor_thread as [[|[|]]|]; [| now contradiction Hth | |];
        destruct k; cbv - [PID.set_auto_mode PID.auto_mode app];
        try destruct (h n);
        repeat split; try reflexivity; try discriminate;
        intros _; now exists RuntimeError.
  - cbv - [app]. split; [reflexivity|]. split; discriminate.
Qed.

(** [ipmi_stop_spec] on a monitoring, connected controller whose hardware
    is dead, stopped from the main thread: the stop raises. *)
Lemma ipmi_stop_spec_witness :
  exists e,
    snd (IPMI.stop_temperature_monitoring (Some (Alive false))
           (IPMI.mkSession ipmi_started true, dead_world)) = Raise e.
Proof.
  destruct (ipmi_stop_spec (Some (Alive false))
              (IPMI.mkSession ipmi_started true) dead_world)
    as (_ & _ & H).
  assert (Hth : Some (Alive false) <> Some (Alive true)) by discriminate.
  destruct (H eq_refl Hth) as (_ & _ & _ & Hc).
  destruct (Hc eq_refl) as (_ & _ & _ & Hr). apply Hr. reflexivity.
Defined.






(** ** Sensor readings across the two backends *)

Lemma valid_temps_permutation (l l' : list sensor) :
  Permutation l l' ->
  Permutation (IPMITool.valid_temps l) (IPMITool.valid_temps l').
Proof.
  induction 1 as [|x l l' _ IH|x y l|l l' l'' _ IH1 _ IH2].
  - constructor.
  - cbn. destruct (current_temp x) as [[n| |]|]; auto.
  - cbn. destruct (current_temp x) as [[n| |]|];
      destruct (current_temp y) as [[m| |]|]; auto using perm_swap, Permutation_refl.
  - eapply Permutation_trans; eassumption.
Qed.

(** X18.  The highest temperature of the ipmitool backend does not depend on the
    order in which the sensors are listed. *)
Theorem tool_highest_temperature_order (l l' : list sensor) :
  Permutation l l' ->
  num_val (IPMITool.get_highest_temperature l)
  == num_val (IPMITool.get_highest_temperature l').
Proof.
  intro Hp. assert (Hv := valid_temps_permutation l l' Hp).
  destruct (tool_highest_temperature l) as [He Hn].
  destruct (tool_highest_temperature l') as [He' Hn'].
  destruct (IPMITool.valid_temps l) as [|t ts] eqn:El.
  - apply Permutation_nil in Hv. rewrite (He eq_refl), (He' Hv). reflexivity.
  - destruct (IPMITool.valid_temps l') as [|t' ts'] eqn:El'.
    + apply Permutation_sym, Permutation_nil in Hv. discriminate Hv.
    + destruct (Hn ltac:(discriminate)) as [Hin Hup].
      destruct (Hn' ltac:(discriminate)) as [Hin' Hup'].
      apply Qle_antisym.
      * apply Hup'. eapply Permutation_in; eassumption.
      * apply Hup. eapply Permutation_in; [apply Permutation_sym|]; eassumption.
Qed.

(** [tool_highest_temperature_order] on two sensors swapped. *)
Lemma tool_highest_temperature_order_witness :
  num_val (IPMITool.get_highest_temperature
             [cpu_65; mkSensor "04h" "Inlet Temp" (Some (VNum (NInt 19))) "" "ok"])
  == num_val (IPMITool.get_highest_temperature
             [mkSensor "04h" "Inlet Temp" (Some (VNum (NInt 19))) "" "ok"; cpu_65]).
Proof.
  apply tool_highest_temperature_order. apply perm_swap.
Defined.

Lemma valid_temps_numeric (sensors : list sensor) (temps : list num) :
  map current_temp sensors = map (fun n => Some (VNum n)) temps ->
  IPMITool.valid_temps sensors = temps.
Proof.
  revert temps. induction sensors as [|s0 rest IH]; intros [|t ts] H;
    try discriminate; [reflexivity|].
  cbn in H. injection H as H0 H. cbn. rewrite H0. f_equal. now apply IH.
Qed.

(** X19.  On a non-empty list of sensors that all carry a number the two
    backends report the same highest temperature. *)
Theorem backends_agree_on_numbers (sensors : list sensor) (temps : list num) :
  sensors <> [] ->
  map current_temp sensors = map (fun n => Some (VNum n)) temps ->
  IPMI.highest_of sensors = Ok (VNum (IPMITool.get_highest_temperature sensors)).
Proof.
  intros Hne H. assert (Hv := valid_temps_numeric sensors temps H).
  destruct sensors as [|s0 rest]; [now contradiction Hne|].
  destruct temps as [|t ts]; [discriminate|].
  unfold IPMITool.get_highest_temperature. rewrite Hv.
  cbn in H. injection H as H0 H. cbn [IPMI.highest_of]. rewrite H0.
  now apply ipmi_max_gen_numeric.
Qed.

(** [backends_agree_on_numbers] on two sensors. *)
Lemma backends_agree_on_numbers_witness :
  IPMI.highest_of
    [mkSensor "04h" "Inlet Temp" (Some (VNum (NInt 19))) "" "ok"; cpu_65]
  = Ok (VNum (IPMITool.get_highest_temperature
                [mkSensor "04h" "Inlet Temp" (Some (VNum (NInt 19))) "" "ok"; cpu_65])).
Proof.
  apply (backends_agree_on_numbers _ [NInt 19; NFloat 65.0]);
    [discriminate | reflexivity].
Defined.

(** ** [configure_pid] *)

(** X20.  [configure_pid] with [min_fan_speed > max_fan_speed] still replaces the
    three gains and silently keeps the limits it had; with ordered limits it
    stores gains and limits.  Target and interval are kept, and so is the
    mode. *)
Theorem configure_pid_spec (c : IPMITool.Ctl) (kp ki kd lo hi : Q) :
  let c' := IPMITool.configure_pid c kp ki kd lo hi in
  (PID.kp (IPMITool.pid c'), PID.ki (IPMITool.pid c'), PID.kd (IPMITool.pid c'))
  = (kp, ki, kd) /\
  (hi < lo ->
   PID.output_min (IPMITool.pid c') = PID.output_min (IPMITool.pid c) /\
   PID.output_max (IPMITool.pid c') = PID.output_max (IPMITool.pid c) /\
   PID.integral (IPMITool.pid c') = PID.integral (IPMITool.pid c)) /\
  (lo <= hi ->
   PID.output_min (IPMITool.pid c') = lo /\
   PID.output_max (IPMITool.pid c') = hi) /\
  IPMITool.target_temp c' = IPMITool.target_temp c /\
  IPMITool.monitor_interval c' = IPMITool.monitor_interval c /\
  PID.auto_mode (IPMITool.pid c') = PID.auto_mode (IPMITool.pid c) /\
  PID.setpoint (IPMITool.pid c') = PID.setpoint (IPMITool.pid c).
Proof.
  cbv zeta. unfold IPMITool.configure_pid, PID.set_output_limits, PID.set_tunings.
  cbn [IPMITool.pid IPMITool.target_temp IPMITool.monitor_interval].
  cbn beta. qsplit_lt hi lo.
  - cbn. repeat split; try reflexivity; exfalso; lra.
  - cbn. destruct (PID.auto_mode (IPMITool.pid c)) eqn:Ea; cbn;
      repeat split; try reflexivity; try (exfalso; lra); now rewrite Ea.
Qed.

(** [configure_pid_spec] on the default controller with limits 80 and 40,
    as given by [--min 80 --max 40]. *)
Lemma configure_pid_spec_witness :
  PID.output_min (IPMITool.pid (IPMITool.configure_pid (IPMITool.init 0)
                                  2.0 0.5 0.25 80.0 40.0)) = 30.0 /\
  PID.kp (IPMITool.pid (IPMITool.configure_pid (IPMITool.init 0)
                          2.0 0.5 0.25 80.0 40.0)) = 2.0.
Proof.
  destruct (configure_pid_spec (IPMITool.init 0) 2.0 0.5 0.25 80.0 40.0)
    as (Hg & Hinv & _).
  assert (H : 40.0 < 80.0) by qdecide.
  destruct (Hinv H) as (Hmin & _).
  split; [rewrite Hmin; reflexivity | exact (f_equal (fun t => fst (fst t)) Hg)].
Defined.
